(** * pyincus: model fields, filter queries and the model metaclass

    A shallow embedding of [pyincus/models/fields.py],
    [pyincus/models/general.py] and [pyincus/models/base.py], and the
    properties of the filter-query builder and of the generated model
    constructor.

    Python values are first-order data; exceptions are results of an
    error type; the generated [__init__] runs in a small state-and-error
    monad over the instance dictionary; insertion-ordered [dict]s are
    association lists with unique keys, the instance [__dict__], whose
    order is never observed, is a [gmap]. *)

From Stdlib Require Import ZArith Ascii String DecimalString.
From stdpp Require Import base strings list gmap.

Local Open Scope Z_scope.

(** ** Python built-ins used by the package *)

Module Py.

(** Modelled from the spec: [PyIncusException] of [pyincus.exceptions],
    which is not among the sources: the one error type of the package,
    raised with a message.  The other exceptions are the interpreter's
    own. *)
Inductive exn : Type :=
| PyIncusException (msg : string)
| KeyError
| TypeError
| AttributeError.

Inductive result (A : Type) : Type :=
| Ok (a : A)
| Raise (e : exn).
Arguments Ok {A} a.
Arguments Raise {A} e.

Definition bind {A B : Type} (r : result A) (k : A -> result B) : result B :=
  match r with
  | Ok a => k a
  | Raise e => Raise e
  end.

(** [' '.join(parts)] *)
Fixpoint join (sep : string) (parts : list string) : string :=
  match parts with
  | [] => ""
  | [p] => p
  | p :: rest => p +:+ sep +:+ join sep rest
  end.

(** *** [repr] of [str]

    A [str] is modelled as a [string] whose characters are code points
    below 256.  The quote is the single quote unless the text holds a
    single quote and no double quote; the quote and the backslash are
    escaped, tab, line feed and carriage return get their letter
    escapes and the other non-printable code points an [\xhh] escape. *)

Definition squote : ascii := "'"%char.
Definition dquote : ascii := ascii_of_nat 34.
Definition backslash : ascii := "\"%char.

Fixpoint contains (c : ascii) (s : string) : bool :=
  match s with
  | EmptyString => false
  | String d rest => if Ascii.eqb c d then true else contains c rest
  end.

Definition hex_digit (n : nat) : ascii :=
  match n with
  | 0 => "0" | 1 => "1" | 2 => "2" | 3 => "3" | 4 => "4" | 5 => "5"
  | 6 => "6" | 7 => "7" | 8 => "8" | 9 => "9" | 10 => "a" | 11 => "b"
  | 12 => "c" | 13 => "d" | 14 => "e" | _ => "f"
  end%nat%char.

Definition hex_escape (n : nat) : string :=
  String backslash
    (String "x" (String (hex_digit (n / 16)) (String (hex_digit (n mod 16)) "")))%nat.

(** [str.isprintable] on one code point below 256. *)
Definition printable (n : nat) : bool :=
  ((32 <=? n) && (n <? 127) || (161 <=? n) && negb (n =? 173))%nat.

Definition escape_char (quote c : ascii) : string :=
  let n := nat_of_ascii c in
  if Ascii.eqb c quote || Ascii.eqb c backslash then String backslash (String c "")
  else if (n =? 9)%nat then String backslash "t"
  else if (n =? 10)%nat then String backslash "n"
  else if (n =? 13)%nat then String backslash "r"
  else if printable n then String c ""
  else hex_escape n.

Fixpoint escape (quote : ascii) (s : string) : string :=
  match s with
  | EmptyString => ""
  | String c rest => escape_char quote c +:+ escape quote rest
  end.

Definition repr_quote (s : string) : ascii :=
  if contains squote s && negb (contains dquote s) then dquote else squote.

Definition repr_str (s : string) : string :=
  let q := repr_quote s in
  String q (escape q s +:+ String q "").

(** [repr] of [int]: the decimal numeral. *)
Definition repr_int (z : Z) : string := NilZero.string_of_int (Z.to_int z).

Definition repr_bool (b : bool) : string := if b then "True" else "False".

(** [repr] of a [list] of [str]: what an f-string shows for it. *)
Definition repr_str_list (l : list string) : string :=
  "[" +:+ join ", " (map repr_str l) +:+ "]".

(** The scalars that the model gives to fields and filters.  ([float]
    is left out: its [repr] is a floating-point algorithm.) *)
Inductive scalar : Type :=
| PyNone
| PyBool (b : bool)
| PyInt (z : Z)
| PyStr (s : string).

Definition repr_scalar (v : scalar) : string :=
  match v with
  | PyNone => "None"
  | PyBool b => repr_bool b
  | PyInt z => repr_int z
  | PyStr s => repr_str s
  end.

(** *** Insertion-ordered [dict] with [str] keys *)

Section Dict.
Context {V : Type}.

Definition dict : Type := list (string * V).

Fixpoint dict_get (k : string) (d : dict) : option V :=
    match d with
    | [] => None
    | (k', v) :: rest => if String.eqb k k' then Some v else dict_get k rest
    end.

(** [k in d] *)
Definition dict_mem (k : string) (d : dict) : bool :=
    match dict_get k d with Some _ => true | None => false end.

(** [d[k] = v]: a present key keeps its position. *)
Fixpoint dict_set (k : string) (v : V) (d : dict) : dict :=
    match d with
    | [] => [(k, v)]
    | (k', v') :: rest =>
        if String.eqb k k' then (k', v) :: rest else (k', v') :: dict_set k v rest
    end.

(** [d | items], [d |= items] and [d.update(items)] *)
Definition dict_update (d : dict) (items : list (string * V)) : dict :=
    fold_left (fun acc kv => dict_set (fst kv) (snd kv) acc) items d.

(** [d.setdefault(k, v)] *)
Definition dict_setdefault (k : string) (v : V) (d : dict) : dict :=
    if dict_mem k d then d else d ++ [(k, v)].

(** [dict(pairs)] *)
Definition dict_of_pairs (pairs : list (string * V)) : dict :=
    dict_update [] pairs.

Definition keys (d : dict) : list string := fst <$> d.
End Dict.
Arguments dict V : clear implicits.

(** [s.startswith('_')] *)
Definition startswith_underscore (s : string) : bool :=
  match s with
  | String c _ => Ascii.eqb c "_"
  | EmptyString => false
  end.

End Py.

Import Py.


(** ** [pyincus/models/fields.py] *)

Module Fields.

(** A class object.  The package reads nothing of a class but its
    [__name__]. *)
Record pytype : Type := { __name__ : string }.

Definition object : pytype := {| __name__ := "object" |}.

(** [class ModelField]: [__init__] stores its two arguments. *)
Record ModelField : Type := { cls : pytype; field_name : string }.

(** [class FilterOperation(Enum)] *)
Inductive FilterOperation : Type := NOT | EQUALS | AND | OR | NOT_EQUALS.

Definition FilterOperation_value (op : FilterOperation) : string :=
  match op with
  | NOT => "not"
  | EQUALS => "eq"
  | AND => "and"
  | OR => "or"
  | NOT_EQUALS => "ne"
  end.

Definition FilterOperation__str__ (self : FilterOperation) : string :=
  FilterOperation_value self.

Definition get_model_options : list FilterOperation := [EQUALS; NOT_EQUALS].

Definition FilterOperation_eqb (a b : FilterOperation) : bool :=
  match a, b with
  | NOT, NOT | EQUALS, EQUALS | AND, AND | OR, OR | NOT_EQUALS, NOT_EQUALS => true
  | _, _ => false
  end.

(** Modelled from the spec: [Unset] of [pyincus.config], which is not
    among the sources: a process-wide singleton marker, compared by
    identity and distinct from every legitimate value, [None] included;
    it is taken to be neither callable nor iterable.

    The other constructors are the objects that reach a filter query.
    [first_value] is annotated [ModelField | Self]; [second_value] is
    [Any]: the sentinel, a scalar, a model field or a nested query. *)
Inductive value : Type :=
| Unset
| Scalar (s : scalar)
| Field (f : ModelField)
| Query (q : FilterQuery)
with FilterQuery : Type :=
| Build_FilterQuery (first : operand) (op : FilterOperation) (second : value)
with operand : Type :=
| OfField (f : ModelField)
| OfQuery (q : FilterQuery).

Definition first_value (q : FilterQuery) : operand :=
  match q with Build_FilterQuery a _ _ => a end.
Definition operation (q : FilterQuery) : FilterOperation :=
  match q with Build_FilterQuery _ op _ => op end.
Definition second_value (q : FilterQuery) : value :=
  match q with Build_FilterQuery _ _ b => b end.

(** [v is Unset] *)
Definition is_Unset (v : value) : bool :=
  match v with Unset => true | _ => false end.

Definition ModelField__repr__ (self : ModelField) : string :=
  __name__ (cls self) +:+ "." +:+ field_name self.

Definition ModelField__str__ (self : ModelField) : string := field_name self.

(** [FilterQuery._repr_mapping]: [NOT] has no entry. *)
Definition _repr_mapping (op : FilterOperation) : result string :=
  match op with
  | EQUALS => Ok "=="
  | AND => Ok "and"
  | OR => Ok "or"
  | NOT_EQUALS => Ok "!="
  | NOT => Raise KeyError
  end.

Definition init_error : string :=
  "Second value must always be set if operation isn't 'not'"
  +:+ " and never be set if operation is 'not'".

Definition FilterQuery__init__
    (first : operand) (op : FilterOperation) (second : value) : result FilterQuery :=
  if xorb (is_Unset second) (FilterOperation_eqb op NOT)
  then Raise (PyIncusException init_error)
  else Ok (Build_FilterQuery first op second).

Fixpoint FilterQuery__repr__ (self : FilterQuery) : result string :=
  match self with
  | Build_FilterQuery a op b =>
      match b with
      | Unset => bind (operand_repr a) (fun ra => Ok ("not " +:+ ra))
      | Scalar s =>
          bind (operand_repr a) (fun ra =>
          bind (_repr_mapping op) (fun sym => Ok (join " " [ra; sym; repr_scalar s])))
      | Field f =>
          bind (operand_repr a) (fun ra =>
          bind (_repr_mapping op) (fun sym => Ok (join " " [ra; sym; ModelField__repr__ f])))
      | Query q =>
          bind (operand_repr a) (fun ra =>
          bind (_repr_mapping op) (fun sym =>
          bind (FilterQuery__repr__ q) (fun rb => Ok (join " " [ra; sym; rb]))))
      end
  end
with operand_repr (o : operand) : result string :=
  match o with
  | OfField f => Ok (ModelField__repr__ f)
  | OfQuery q => FilterQuery__repr__ q
  end.

(** [__str__]: [stringify] is [str] for a nested query and [repr] for
    anything else. *)
Fixpoint FilterQuery__str__ (self : FilterQuery) : string :=
  match self with
  | Build_FilterQuery a op b =>
      match b with
      | Unset => "not " +:+ operand_str a
      | Query q =>
          (operand_str a +:+ " " +:+ FilterOperation__str__ op +:+ " ")
          +:+ FilterQuery__str__ q
      | Scalar s =>
          (operand_str a +:+ " " +:+ FilterOperation__str__ op +:+ " ")
          +:+ repr_scalar s
      | Field f =>
          (operand_str a +:+ " " +:+ FilterOperation__str__ op +:+ " ")
          +:+ ModelField__repr__ f
      end
  end
with operand_str (o : operand) : string :=
  match o with
  | OfField f => ModelField__str__ f
  | OfQuery q => FilterQuery__str__ q
  end.

Definition FilterQuery__eq__ (self other : FilterQuery) : bool :=
  String.eqb (FilterQuery__str__ self) (FilterQuery__str__ other).

Definition FilterQuery__and__ (self : FilterQuery) (other : value) : result FilterQuery :=
  FilterQuery__init__ (OfQuery self) AND other.

Definition FilterQuery__or__ (self : FilterQuery) (other : value) : result FilterQuery :=
  FilterQuery__init__ (OfQuery self) OR other.

Definition FilterQuery__invert__ (self : FilterQuery) : result FilterQuery :=
  FilterQuery__init__ (OfQuery self) NOT Unset.

Definition ModelField__eq__ (self : ModelField) (other : value) : result FilterQuery :=
  FilterQuery__init__ (OfField self) EQUALS other.

Definition ModelField__ne__ (self : ModelField) (other : value) : result FilterQuery :=
  FilterQuery__init__ (OfField self) NOT_EQUALS other.

(** [hash] of a [str] is the interpreter's keyed string hash; the
    methods below only pass it on. *)
Section Hash.
Variable hash_str : string -> Z.

Definition ModelField__hash__ (self : ModelField) : Z := hash_str (field_name self).

Fixpoint FilterQuery__hash__ (self : FilterQuery) : Z :=
  match self with
  | Build_FilterQuery a _ _ => operand_hash a
  end
with operand_hash (o : operand) : Z :=
  match o with
  | OfField f => ModelField__hash__ f
  | OfQuery q => FilterQuery__hash__ q
  end.
End Hash.

End Fields.

(** ** [pyincus/models/general.py] *)

Module General.

(** [class ModelField]: the field name only. *)
Record ModelField : Type := { field_name : string }.

Inductive FilterOperation : Type := NOT | EQUALS | AND | OR | NOT_EQUALS.

Definition FilterOperation_value (op : FilterOperation) : string :=
  match op with
  | NOT => "not"
  | EQUALS => "eq"
  | AND => "and"
  | OR => "or"
  | NOT_EQUALS => "ne"
  end.

Definition FilterOperation_eqb (a b : FilterOperation) : bool :=
  match a, b with
  | NOT, NOT | EQUALS, EQUALS | AND, AND | OR, OR | NOT_EQUALS, NOT_EQUALS => true
  | _, _ => false
  end.

(** Modelled from the spec: [Unset] of [pyincus.config], as in [Fields].

    The operands of this module's queries are not annotated: the
    descriptor's operators pass the field name, a [str], as first value.
    (A [ModelField] of this module has no [__repr__] of its own and is
    left out of the operands.) *)
Inductive value : Type :=
| Unset
| Scalar (s : scalar)
| Query (q : FilterQuery)
with FilterQuery : Type :=
| Build_FilterQuery (first : value) (op : FilterOperation) (second : value).

Definition first_value (q : FilterQuery) : value :=
  match q with Build_FilterQuery a _ _ => a end.
Definition operation (q : FilterQuery) : FilterOperation :=
  match q with Build_FilterQuery _ op _ => op end.
Definition second_value (q : FilterQuery) : value :=
  match q with Build_FilterQuery _ _ b => b end.

Definition is_Unset (v : value) : bool :=
  match v with Unset => true | _ => false end.

Definition _repr_mapping (op : FilterOperation) : result string :=
  match op with
  | EQUALS => Ok "=="
  | AND => Ok "and"
  | OR => Ok "or"
  | NOT_EQUALS => Ok "!="
  | NOT => Raise KeyError
  end.

Definition init_error : string :=
  "Second value must always be set if operation isn't 'not'".

Definition FilterQuery__init__
    (first : value) (op : FilterOperation) (second : value) : result FilterQuery :=
  if is_Unset second && negb (FilterOperation_eqb op NOT)
  then Raise (PyIncusException init_error)
  else Ok (Build_FilterQuery first op second).

Section Repr.
(** [repr(Unset)]: whatever [pyincus.config] makes it. *)
Variable repr_Unset : string.

Fixpoint FilterQuery__repr__ (self : FilterQuery) : result string :=
  match self with
  | Build_FilterQuery a op b =>
      match b with
      | Unset => Ok ("not " +:+ repr_Unset)
      | _ =>
          bind (_repr_mapping op) (fun sym =>
          bind (repr a) (fun ra =>
          bind (repr b) (fun rb => Ok (join " " [ra; repr_str sym; rb]))))
      end
  end
with repr (v : value) : result string :=
  match v with
  | Unset => Ok repr_Unset
  | Scalar s => Ok (repr_scalar s)
  | Query q => FilterQuery__repr__ q
  end.

Definition FilterQuery__str__ (self : FilterQuery) : result string :=
  match second_value self with
  | Unset => bind (repr (first_value self)) (fun ra => Ok ("not " +:+ ra))
  | b =>
      bind (repr (first_value self)) (fun ra =>
      bind (repr b) (fun rb =>
        Ok (join " " [ra; repr_str (FilterOperation_value (operation self)); rb])))
  end.
End Repr.

Definition ModelField__eq__ (self : ModelField) (other : value) : result FilterQuery :=
  FilterQuery__init__ (Scalar (PyStr (field_name self))) EQUALS other.

Definition ModelField__and__ (self : ModelField) (other : value) : result FilterQuery :=
  FilterQuery__init__ (Scalar (PyStr (field_name self))) AND other.

Definition ModelField__or__ (self : ModelField) (other : value) : result FilterQuery :=
  FilterQuery__init__ (Scalar (PyStr (field_name self))) OR other.

Definition ModelField__ne__ (self : ModelField) (other : value) : result FilterQuery :=
  FilterQuery__init__ (Scalar (PyStr (field_name self))) NOT_EQUALS other.

Definition ModelField__invert__ (self : ModelField) : result FilterQuery :=
  FilterQuery__init__ (Scalar (PyStr (field_name self))) NOT Unset.

End General.

(** ** [pyincus/models/base.py] *)

Module Base.
Import Fields.

(** The objects of a class body, of keyword arguments and of instance
    attributes: functions and properties, named by their code, classes,
    the cell that the compiler puts in a class body under [__classcell__]
    when a method uses [super], [dict]s with [str] keys, and the values
    of [Fields].  Functions and classes are the callables; the sentinel
    is none. *)
#[warnings="-register-all"]
Inductive pyobject : Type :=
| Function (code : string)
| Property (fget : string)
| Class (t : pytype)
| Cell
| Dict (items : list (string * pyobject))
| Value (v : value).

Definition callable (o : pyobject) : bool :=
  match o with Function _ | Class _ => true | _ => false end.

Definition is_property (o : pyobject) : bool :=
  match o with Property _ => true | _ => false end.

Definition is_Unset (o : pyobject) : bool :=
  match o with Value Unset => true | _ => false end.

(** Iteration over an object: a [dict] yields its keys, a [str] its
    characters, the other objects are not iterable. *)
Fixpoint chars (s : string) : list string :=
  match s with
  | EmptyString => []
  | String c rest => String c "" :: chars rest
  end.

Definition iter (o : pyobject) : result (list string) :=
  match o with
  | Dict d => Ok (keys d)
  | Value (Scalar (PyStr s)) => Ok (chars s)
  | _ => Raise TypeError
  end.

Definition as_dict (o : pyobject) : result (dict pyobject) :=
  match o with
  | Dict d => Ok d
  | _ => Raise TypeError
  end.

(** A class: its name, its bases and its own namespace, the entries of
    [vars(cls)] that come from the class body and from the builder. *)
Record pyclass : Type := {
  class_name : string;
  class_bases : list pytype;
  namespace : dict pyobject
}.

(** [del d[k]], for a key that may be absent. *)
Definition dict_del (k : string) (d : dict pyobject) : dict pyobject :=
  List.filter (fun item => negb (String.eqb (fst item) k)) d.

(** [type(name, bases, namespace)].  The new class has the entries of
    the namespace but two: [__qualname__], which has to be a [str] and
    becomes the qualified name of the class, and [__classcell__], which
    has to be the cell of the class body and is filled with the class;
    neither is in [vars] of the class.  The entries that [type] makes
    under names of its own where the namespace has none ([__dict__],
    [__weakref__], [__doc__], [__module__]) are not kept track of, and a
    function under [__new__], [__init_subclass__] or [__class_getitem__],
    which [type] wraps as a static or class method, stays the function
    here. *)
Definition type (name : string) (bases : list pytype) (ns : dict pyobject)
    : result pyclass :=
  match dict_get "__qualname__" ns with
  | Some (Value (Scalar (PyStr _))) | None =>
      match dict_get "__classcell__" ns with
      | Some Cell | None =>
          Ok {| class_name := name; class_bases := bases;
                namespace := dict_del "__classcell__" (dict_del "__qualname__" ns) |}
      | Some _ => Raise TypeError
      end
  | Some _ => Raise TypeError
  end.

Definition type_of (c : pyclass) : pytype := {| __name__ := class_name c |}.

Definition BaseIncusMeta : pytype := {| __name__ := "BaseIncusMeta" |}.

Definition _init_code : string := "BaseIncusMeta._init".
Definition _post_init_code : string := "BaseIncusMeta._post_init".

(** The first loop of [__new__]: one class-body item, sorted into the
    default mapping, the methods or the private attributes. *)
Definition classify
    (acc : dict pyobject * list (string * pyobject) * list (string * pyobject))
    (item : string * pyobject)
    : dict pyobject * list (string * pyobject) * list (string * pyobject) :=
  let '(new_class_model_fields, methods, secret_attributes) := acc in
  let '(attr, value) := item in
  if callable value || is_property value
  then (new_class_model_fields, methods ++ [item], secret_attributes)
  else if startswith_underscore attr
  then (new_class_model_fields, methods, secret_attributes ++ [item])
  else (dict_update new_class_model_fields [item], methods, secret_attributes).

(** The second loop: one annotated name. *)
Definition annotate (cls : pytype)
    (acc : list (string * pyobject) * dict pyobject) (attr : string)
    : list (string * pyobject) * dict pyobject :=
  let '(model_fields, new_class_model_fields) := acc in
  if startswith_underscore attr then acc
  else (model_fields ++ [(attr, Value (Field {| cls := cls; field_name := attr |}))],
        dict_setdefault attr (Value Unset) new_class_model_fields).

(** [BaseIncusMeta.__new__(cls, name, bases, attrs)].  [type(name, bases,
    namespace)] makes the class; the three assignments that follow are
    entries of its namespace. *)
Definition BaseIncusMeta__new__
    (cls : pytype) (name : string) (bases : list pytype) (attrs : dict pyobject)
    : result pyclass :=
  let '(fields0, methods, secret_attributes) := fold_left classify attrs ([], [], []) in
  bind (match dict_get "__annotations__" attrs with
        | Some o => iter o
        | None => Ok []
        end) (fun annotations =>
  let '(model_fields, new_class_model_fields) :=
    fold_left (annotate cls) annotations ([], fields0) in
  bind (type name bases (dict_of_pairs (secret_attributes ++ methods ++ model_fields)))
    (fun new_class =>
  let ns := namespace new_class in
  let ns := dict_set "__init__" (Function _init_code) ns in
  let ns := if dict_mem "__post_init__" ns then ns
            else dict_set "__post_init__" (Function _post_init_code) ns in
  let ns := dict_set "_model_fields" (Dict new_class_model_fields) ns in
  Ok {| class_name := class_name new_class; class_bases := class_bases new_class;
        namespace := ns |})).

(** [incus_model(cls)]: calling the metaclass runs its [__new__] on
    itself. *)
Definition incus_model (name : string) (mro : list pytype) (vars : dict pyobject)
    : result pyclass :=
  BaseIncusMeta__new__ BaseIncusMeta name mro vars.

(** [T._model_fields], read from the namespace of the class. *)
Definition _model_fields (T : pyclass) : dict pyobject :=
  match dict_get "_model_fields" (namespace T) with
  | Some (Dict d) => d
  | _ => []
  end.

(** *** The generated constructor

    The state is the instance's [__dict__] together with a log of the
    calls of [__post_init__]: the instance as the hook found it and the
    keyword arguments it got.  The instance is made, and its attributes
    are read and written, the way [object] does it: a class that takes
    this over, with a [__new__], a [__setattr__], a [__getattribute__]
    or [__slots__] of its own or of a base, is not described here. *)
Record state : Type := {
  self_dict : gmap string pyobject;
  post_init_calls : list (gmap string pyobject * dict pyobject)
}.

Definition M (A : Type) : Type := state -> state * result A.

Definition ret {A : Type} (a : A) : M A := fun st => (st, Ok a).

Definition raise {A : Type} (e : exn) : M A := fun st => (st, Raise e).

Definition mbind {A B : Type} (m : M A) (k : A -> M B) : M B :=
  fun st =>
    match m st with
    | (st', Ok a) => k a st'
    | (st', Raise e) => (st', Raise e)
    end.

Definition lift {A : Type} (r : result A) : M A := fun st => (st, r).

Notation "x <- m ;; k" := (mbind m (fun x => k))
  (at level 100, m at next level, right associativity).

(** [getattr(self, name)] for the two names that [_init] reads, a [dict]
    and a function: the instance's [__dict__], then the namespace of its
    class. *)
Definition getattr (T : pyclass) (name : string) : M pyobject :=
  fun st =>
    match self_dict st !! name with
    | Some o => (st, Ok o)
    | None =>
        match dict_get name (namespace T) with
        | Some o => (st, Ok o)
        | None => (st, Raise AttributeError)
        end
    end.

Definition setattr (name : string) (o : pyobject) : M unit :=
  fun st =>
    ({| self_dict := <[name := o]> (self_dict st);
        post_init_calls := post_init_calls st |}, Ok tt).

(** What a function does when called on [self] with keyword arguments: it may
    change the instance and may raise. *)
Definition method : Type :=
  gmap string pyobject -> dict pyobject -> gmap string pyobject * result unit.

(** The arguments of a call [f(self, **kwargs)] of a function declared
    with the parameters [(self, **kwargs)]: a keyword named [self] is a
    second value for the first parameter, and the call is refused before
    the body runs. *)
Definition bind_kwargs (kwargs : dict pyobject) : result (dict pyobject) :=
  if dict_mem "self" kwargs then Raise TypeError else Ok kwargs.

(** [BaseIncusMeta._post_init(self, **kwargs)]: an empty body. *)
Definition BaseIncusMeta_post_init : method :=
  fun self kwargs => (self, bind (bind_kwargs kwargs) (fun _ => Ok tt)).

Section Constructor.
(** The bodies of the functions of the class body. *)
Variable user_code : string -> method.

Definition code_of (code : string) : method :=
  if String.eqb code _post_init_code then BaseIncusMeta_post_init
  else user_code code.

(** The call of [self.__post_init__] with [kwargs] unpacked: a function
    bound to the name is called as a method of the instance.  A cell, a
    [dict] and the values of [Fields] are not callable.  A class or a
    property under the name is not followed, what the class makes of the
    keywords and what the property returns being no part of the class
    body: the call is given as [TypeError] for them as well, and a call
    that succeeds is the call of a function. *)
Definition call_post_init (T : pyclass) (kwargs : dict pyobject) : M unit :=
  f <- getattr T "__post_init__" ;;
  match f with
  | Function code =>
      fun st =>
        let '(d, r) := code_of code (self_dict st) kwargs in
        ({| self_dict := d;
            post_init_calls := post_init_calls st ++ [(self_dict st, kwargs)] |}, r)
  | _ => raise TypeError
  end.

(** The loop of [_init] over [kwargs.items()]. *)
Fixpoint init_loop (T : pyclass) (items : list (string * pyobject))
    (unsets : list string) : M (list string) :=
  match items with
  | [] => ret unsets
  | (field, value) :: rest =>
      mf <- getattr T "_model_fields" ;;
      d <- lift (as_dict mf) ;;
      if negb (dict_mem field d) then init_loop T rest unsets
      else if is_Unset value then init_loop T rest (unsets ++ [field])
      else match unsets with
           | [] => _ <- setattr field value ;; init_loop T rest unsets
           | _ => init_loop T rest unsets
           end
  end.

Definition missing_error (unsets : list string) : string :=
  "The required fields " +:+ repr_str_list unsets +:+ " are missing.".

(** [BaseIncusMeta._init(self, **kwargs)], the [__init__] of every model,
    on an instance of [T]. *)
Definition BaseIncusMeta_init (T : pyclass) (kwargs : dict pyobject) : M unit :=
  kwargs <- lift (bind_kwargs kwargs) ;;
  mf <- getattr T "_model_fields" ;;
  d <- lift (as_dict mf) ;;
  let kwargs := dict_update d kwargs in
  unsets <- init_loop T kwargs [] ;;
  match unsets with
  | [] => call_post_init T kwargs
  | _ => raise (PyIncusException (missing_error unsets))
  end.

(** Calling the class [T] with keyword arguments: a fresh instance, then
    [__init__], which [__new__] has set to [_init]. *)
Definition construct (T : pyclass) (kwargs : dict pyobject) : state * result unit :=
  BaseIncusMeta_init T kwargs {| self_dict := ∅; post_init_calls := [] |}.

End Constructor.

End Base.

(** * Vocabulary of the properties *)

Section Vocabulary.
Import Fields Base.

(** A character that [repr] copies unchanged between single quotes. *)
Definition plain_char (c : ascii) : bool :=
  printable (nat_of_ascii c) && negb (Ascii.eqb c squote) && negb (Ascii.eqb c backslash).

Fixpoint plain (s : string) : bool :=
  match s with
  | EmptyString => true
  | String c rest => plain_char c && plain rest
  end.

(** [str(r)] for the outcome [r] of an expression that builds a query. *)
Definition wire (r : result FilterQuery) : result string :=
  bind r (fun q => Ok (FilterQuery__str__ q)).

(** The text of C3 for a [str]: the value between single quotes. *)
Definition eq_wire_string_as_stated (f : ModelField) (v : string) : Prop :=
  wire (ModelField__eq__ f (Scalar (PyStr v)))
  = Ok (field_name f +:+ " eq '" +:+ v +:+ "'").

(** Three leaves, and their conjunction nested to the left and to the
    right: two different trees. *)
Definition leaf_a : FilterQuery :=
  Build_FilterQuery (OfField {| cls := object; field_name := "a" |}) EQUALS (Scalar (PyInt 1)).
Definition leaf_b : FilterQuery :=
  Build_FilterQuery (OfField {| cls := object; field_name := "b" |}) EQUALS (Scalar (PyInt 2)).
Definition leaf_c : FilterQuery :=
  Build_FilterQuery (OfField {| cls := object; field_name := "c" |}) NOT_EQUALS (Scalar (PyStr "x")).

Definition nested_left : result FilterQuery :=
  bind (FilterQuery__and__ leaf_a (Query leaf_b)) (fun ab =>
  FilterQuery__and__ ab (Query leaf_c)).
Definition nested_right : result FilterQuery :=
  bind (FilterQuery__and__ leaf_b (Query leaf_c)) (fun bc =>
  FilterQuery__and__ leaf_a (Query bc)).

Definition nested_left_tree : FilterQuery :=
  Build_FilterQuery
    (OfQuery (Build_FilterQuery (OfQuery leaf_a) AND (Query leaf_b))) AND (Query leaf_c).

Definition public (k : string) : Prop := startswith_underscore k = false.

Definition is_method (item : string * pyobject) : bool :=
  callable (snd item) || is_property (snd item).
Definition is_secret (item : string * pyobject) : bool :=
  negb (is_method item) && startswith_underscore (fst item).
Definition is_default (item : string * pyobject) : bool :=
  negb (is_method item) && negb (startswith_underscore (fst item)).

Definition descriptor (cls : pytype) (attr : string) : string * pyobject :=
  (attr, Value (Field {| cls := cls; field_name := attr |})).

Definition public_names (names : list string) : list string :=
  List.filter (fun a => negb (startswith_underscore a)) names.

Definition setdefaults (names : list string) (d : dict pyobject) : dict pyobject :=
  fold_left (fun acc a => dict_setdefault a (Value Unset) acc) names d.

(** What the constructor relies on in a class: its default mapping is a
    [dict] in its namespace, with public keys. *)
Record model_class (T : pyclass) : Prop := {
  mc_fields : dict_get "_model_fields" (namespace T) = Some (Dict (_model_fields T));
  mc_nodup : NoDup (keys (_model_fields T));
  mc_public : forall k, k ∈ keys (_model_fields T) -> public k
}.

(** The class that [__new__] returns, in closed form. *)
Definition default_mapping (attrs : dict pyobject) (annotations : list string)
    : dict pyobject :=
  setdefaults (public_names annotations) (dict_update [] (List.filter is_default attrs)).

Definition class_pairs (cls : pytype) (attrs : dict pyobject) (annotations : list string)
    : dict pyobject :=
  dict_of_pairs (List.filter is_secret attrs ++ List.filter is_method attrs
                 ++ map (descriptor cls) (public_names annotations)).

Definition class_body (cls : pytype) (attrs : dict pyobject) (annotations : list string)
    : dict pyobject :=
  dict_del "__classcell__" (dict_del "__qualname__" (class_pairs cls attrs annotations)).

Definition with_hooks (ns : dict pyobject) : dict pyobject :=
  let ns := dict_set "__init__" (Function _init_code) ns in
  if dict_mem "__post_init__" ns then ns
  else dict_set "__post_init__" (Function _post_init_code) ns.

Definition annotations_of (attrs : dict pyobject) : result (list string) :=
  match dict_get "__annotations__" attrs with
  | Some o => iter o
  | None => Ok []
  end.

(** One turn of the loop of [_init], on the instance dictionary and the
    list of missing fields. *)
Definition assign (mf : dict pyobject)
    (acc : gmap string pyobject * list string) (item : string * pyobject)
    : gmap string pyobject * list string :=
  if negb (dict_mem (fst item) mf) then acc
  else if Base.is_Unset (snd item) then (fst acc, snd acc ++ [fst item])
  else match snd acc with
       | [] => (<[fst item := snd item]> (fst acc), snd acc)
       | _ => acc
       end.

(** Only public attributes are on the instance. *)
Definition fresh (st : state) : Prop :=
  forall k, self_dict st !! k <> None -> public k.

(** The instance that the loop leaves and the fields it found missing. *)
Definition assigned (T : pyclass) (kwargs : dict pyobject) : gmap string pyobject :=
  fst (fold_left (assign (_model_fields T))
         (dict_update (_model_fields T) kwargs) (∅, [])).

Definition missing (T : pyclass) (kwargs : dict pyobject) : list string :=
  snd (fold_left (assign (_model_fields T))
         (dict_update (_model_fields T) kwargs) (∅, [])).

(** The hook runs on the instance and the log takes the call. *)
Definition run_hook (h : method) (self : gmap string pyobject) (kwargs : dict pyobject)
    : state * result unit :=
  ({| self_dict := fst (h self kwargs); post_init_calls := [(self, kwargs)] |},
   snd (h self kwargs)).

(** The model of the end-to-end scenario: [a: int], required, and
    [b: str = 'x']. *)
Definition int : pytype := {| __name__ := "int" |}.
Definition str : pytype := {| __name__ := "str" |}.

Definition M_vars : dict pyobject :=
  [("__module__", Value (Scalar (PyStr "models")));
   ("__annotations__", Dict [("a", Class int); ("b", Class str)]);
   ("b", Value (Scalar (PyStr "x")));
   ("__doc__", Value (Scalar PyNone))].

Definition M_class : pyclass :=
  {| class_name := "M";
     class_bases := [{| __name__ := "M" |}; object];
     namespace :=
       [("__module__", Value (Scalar (PyStr "models")));
        ("__annotations__", Dict [("a", Class int); ("b", Class str)]);
        ("__doc__", Value (Scalar PyNone));
        ("a", Value (Field {| cls := BaseIncusMeta; field_name := "a" |}));
        ("b", Value (Field {| cls := BaseIncusMeta; field_name := "b" |}));
        ("__init__", Function _init_code);
        ("__post_init__", Function _post_init_code);
        ("_model_fields", Dict [("b", Value (Scalar (PyStr "x"))); ("a", Value Unset)])] |}.

(** No function of a class body does anything. *)
Definition no_code : string -> method := fun _ self _ => (self, Ok tt).

(** The text of C8, read of the instance that the call returns. *)
Definition fields_end_up_as_supplied
    (user_code : string -> method) (T : pyclass) (kwargs : dict pyobject) : Prop :=
  forall st : state,
    construct user_code T kwargs = (st, Ok tt) ->
    (forall k v, k ∈ keys (_model_fields T) -> dict_get k kwargs = Some v ->
                 self_dict st !! k = Some v) /\
    (forall k v, dict_get k (_model_fields T) = Some v -> dict_get k kwargs = None ->
                 self_dict st !! k = Some v) /\
    (forall k, k ∈ keys kwargs -> k ∉ keys (_model_fields T) ->
               self_dict st !! k = None).

(** The model of [test_post_init]: [a: int], [_b: int] and a hook that
    adds a salt to [a] and sets [_b] from the keyword arguments. *)
Definition TestClass_vars : dict pyobject :=
  [("__module__", Value (Scalar (PyStr "test_base")));
   ("__annotations__", Dict [("a", Class int); ("_b", Class int)]);
   ("__post_init__", Function "TestClass.__post_init__")].

Definition TestClass : pyclass :=
  {| class_name := "TestClass";
     class_bases := [{| __name__ := "TestClass" |}; object];
     namespace :=
       [("__module__", Value (Scalar (PyStr "test_base")));
        ("__annotations__", Dict [("a", Class int); ("_b", Class int)]);
        ("__post_init__", Function "TestClass.__post_init__");
        ("a", Value (Field {| cls := BaseIncusMeta; field_name := "a" |}));
        ("__init__", Function _init_code);
        ("_model_fields", Dict [("a", Value Unset)])] |}.

Definition TestClass__post_init__ (post_salt : Z) : method :=
  fun self kwargs =>
    match self !! "a" with
    | Some (Value (Scalar (PyInt a))) =>
        let self := <["a" := Value (Scalar (PyInt (a + post_salt)))]> self in
        let self := <["_b" := default (Value (Scalar (PyInt 0))) (dict_get "_b" kwargs)]> self in
        match self !! "_b" with
        | Some (Value (Scalar (PyInt b))) =>
            (<["_b" := Value (Scalar (PyInt (b + post_salt)))]> self, Ok tt)
        | _ => (self, Raise TypeError)
        end
    | _ => (self, Raise TypeError)
    end.

Definition test_code : string -> method :=
  fun code =>
    if String.eqb code "TestClass.__post_init__" then TestClass__post_init__ 3
    else no_code code.

(** The text of C10, read of the instance that the call returns. *)
Definition plain_attribute_assigned_as_recorded
    (user_code : string -> method) (T : pyclass) (x : string) (v : pyobject) : Prop :=
  dict_get x (namespace T) = None /\
  dict_get x (_model_fields T) = Some v /\
  forall (kwargs : dict pyobject) (st : state),
    construct user_code T kwargs = (st, Ok tt) -> self_dict st !! x = Some v.

(** A class with one public attribute, not annotated. *)
Definition Settings_vars : dict pyobject :=
  [("__module__", Value (Scalar (PyStr "settings")));
   ("timeout", Value (Scalar (PyInt 30)))].

Definition Settings : pyclass :=
  {| class_name := "Settings";
     class_bases := [{| __name__ := "Settings" |}; object];
     namespace :=
       [("__module__", Value (Scalar (PyStr "settings")));
        ("__init__", Function _init_code);
        ("__post_init__", Function _post_init_code);
        ("_model_fields", Dict [("timeout", Value (Scalar (PyInt 30)))])] |}.

(** The invariant of the constructor of [fields.py], all through a tree:
    a node has no second operand exactly when it is a negation. *)
Fixpoint well_formed (q : FilterQuery) : bool :=
  match q with
  | Build_FilterQuery a op b =>
      operand_well_formed a &&
      match b with
      | Unset => FilterOperation_eqb op NOT
      | Scalar _ | Field _ => negb (FilterOperation_eqb op NOT)
      | Query q' => negb (FilterOperation_eqb op NOT) && well_formed q'
      end
  end
with operand_well_formed (o : operand) : bool :=
  match o with
  | OfField _ => true
  | OfQuery q => well_formed q
  end.

Definition value_well_formed (v : value) : bool :=
  match v with
  | Query q => well_formed q
  | _ => true
  end.

(** [repr(r)] for the outcome [r] of an expression that builds a query. *)
Definition debug (r : result FilterQuery) : result string :=
  bind r FilterQuery__repr__.

(** A class body with fields of the three kinds: [host], annotated and
    without value; [port], annotated with a value; [retries], a value
    without annotation; and [handler], annotated with a function for
    value. *)
Definition Server_vars : dict pyobject :=
  [("__module__", Value (Scalar (PyStr "servers")));
   ("__annotations__",
    Dict [("host", Class str); ("port", Class int); ("handler", Class object);
          ("_token", Class str)]);
   ("port", Value (Scalar (PyInt 8443)));
   ("retries", Value (Scalar (PyInt 3)));
   ("handler", Function "Server.handler");
   ("_token", Value (Scalar (PyStr "secret")));
   ("__init__", Function "Server.__init__");
   ("describe", Function "Server.describe");
   ("url", Property "Server.url")].

Definition Server : pyclass :=
  {| class_name := "Server";
     class_bases := [{| __name__ := "Server" |}; object];
     namespace :=
       [("__module__", Value (Scalar (PyStr "servers")));
        ("__annotations__",
         Dict [("host", Class str); ("port", Class int); ("handler", Class object);
               ("_token", Class str)]);
        ("_token", Value (Scalar (PyStr "secret")));
        ("handler", Value (Field {| cls := BaseIncusMeta; field_name := "handler" |}));
        ("__init__", Function _init_code);
        ("describe", Function "Server.describe");
        ("url", Property "Server.url");
        ("host", Value (Field {| cls := BaseIncusMeta; field_name := "host" |}));
        ("port", Value (Field {| cls := BaseIncusMeta; field_name := "port" |}));
        ("__post_init__", Function _post_init_code);
        ("_model_fields",
         Dict [("port", Value (Scalar (PyInt 8443))); ("retries", Value (Scalar (PyInt 3)));
               ("host", Value Unset); ("handler", Value Unset)])] |}.

(** The names under which [type] does not leave the class body as it is:
    two it takes out of the namespace, and a function under one of the
    other three becomes a static or class method. *)
Definition handled_by_type : list string :=
  ["__qualname__"; "__classcell__"; "__new__"; "__init_subclass__"; "__class_getitem__"].

(** The body of a class statement with the metaclass, inside a class
    [Queue]: [name], annotated, and a method that uses [super]. *)
Definition Job_attrs : dict pyobject :=
  [("__module__", Value (Scalar (PyStr "jobs")));
   ("__qualname__", Value (Scalar (PyStr "Queue.Job")));
   ("__annotations__", Dict [("name", Class str)]);
   ("describe", Function "Job.describe");
   ("__classcell__", Cell)].

Definition Job : pyclass :=
  {| class_name := "Job";
     class_bases := [];
     namespace :=
       [("__module__", Value (Scalar (PyStr "jobs")));
        ("__annotations__", Dict [("name", Class str)]);
        ("describe", Function "Job.describe");
        ("name", Value (Field {| cls := BaseIncusMeta; field_name := "name" |}));
        ("__init__", Function _init_code);
        ("__post_init__", Function _post_init_code);
        ("_model_fields", Dict [("name", Value Unset)])] |}.

End Vocabulary.

(** * Properties *)

(** ** Strings and [repr] *)

Lemma append_cons (x : ascii) (a b : string) : String x a +:+ b = String x (a +:+ b).
Proof. reflexivity. Qed.

Lemma append_nil_l (a : string) : "" +:+ a = a.
Proof. reflexivity. Qed.

Lemma append_assoc (a b c : string) : (a +:+ b) +:+ c = a +:+ (b +:+ c).
Proof.
  induction a as [|x a IH]; [reflexivity |].
  rewrite !append_cons. f_equal. exact IH.
Qed.

Lemma append_nil_r (a : string) : a +:+ "" = a.
Proof.
  induction a as [|x a IH]; [reflexivity |].
  rewrite append_cons. f_equal. exact IH.
Qed.

Lemma append_length (a b : string) :
  String.length (a +:+ b) = (String.length a + String.length b)%nat.
Proof.
  induction a as [|x a IH]; [reflexivity |].
  rewrite append_cons. simpl. f_equal. exact IH.
Qed.

(** Two texts with a common tail are equal as soon as the wholes are. *)
Lemma append_inj_r (a b c : string) : a +:+ c = b +:+ c -> a = b.
Proof.
  revert b. induction a as [|x a IH]; intros [|y b] H.
  - reflexivity.
  - apply (f_equal String.length) in H.
    rewrite ?append_nil_l, ?append_cons in H. simpl in H.
    rewrite append_length in H. lia.
  - apply (f_equal String.length) in H.
    rewrite ?append_nil_l, ?append_cons in H. simpl in H.
    rewrite append_length in H. lia.
  - rewrite !append_cons in H. injection H as -> H. f_equal. now apply IH.
Qed.

Lemma escape_char_plain (c : ascii) :
  plain_char c = true -> escape_char squote c = String c "".
Proof.
  destruct c as [[] [] [] [] [] [] [] []]; vm_compute; congruence.
Qed.

Lemma escape_plain (s : string) : plain s = true -> escape squote s = s.
Proof.
  induction s as [|c s IH]; [reflexivity |].
  change (plain (String c s)) with (plain_char c && plain s).
  change (escape squote (String c s)) with (escape_char squote c +:+ escape squote s).
  intros [Hc Hs]%andb_prop. rewrite (escape_char_plain c Hc), (IH Hs). reflexivity.
Qed.

Lemma plain_no_squote (s : string) : plain s = true -> contains squote s = false.
Proof.
  induction s as [|c s IH]; [reflexivity |].
  change (plain (String c s)) with (plain_char c && plain s).
  change (contains squote (String c s))
    with (if Ascii.eqb squote c then true else contains squote s).
  intros [Hc Hs]%andb_prop. unfold plain_char in Hc.
  apply andb_prop in Hc as [[_ Hq]%andb_prop _].
  apply negb_true_iff in Hq. rewrite Ascii.eqb_sym, Hq. now apply IH.
Qed.

(** On a text without quote, backslash or non-printable character,
    [repr] is the text between single quotes. *)
Lemma repr_str_plain (s : string) :
  plain s = true -> repr_str s = "'" +:+ s +:+ "'".
Proof.
  intros H. unfold repr_str, repr_quote.
  rewrite (plain_no_squote s H). simpl. now rewrite (escape_plain s H).
Qed.

(** [repr] of a list of names shows the [repr] of each of them. *)
Lemma join_mentions (sep x : string) (l : list string) :
  In x l -> exists pre post, join sep l = pre +:+ x +:+ post.
Proof.
  induction l as [|y l IH]; [intros [] |].
  intros [-> | Hin].
  - destruct l as [|z l].
    + exists "", "". simpl. now rewrite append_nil_r.
    + exists "", (sep +:+ join sep (z :: l)). reflexivity.
  - destruct (IH Hin) as (pre & post & E).
    destruct l as [|z l]; [destruct Hin |].
    exists (y +:+ sep +:+ pre), post.
    change (join sep (y :: z :: l)) with (y +:+ sep +:+ join sep (z :: l)).
    rewrite E. now rewrite !append_assoc.
Qed.

Lemma repr_str_list_mentions (x : string) (l : list string) :
  In x l -> exists pre post, repr_str_list l = pre +:+ repr_str x +:+ post.
Proof.
  intros Hin. unfold repr_str_list.
  destruct (join_mentions ", " (repr_str x) (map repr_str l)) as (pre & post & E).
  { now apply in_map. }
  exists ("[" +:+ pre), (post +:+ "]"). rewrite E. simpl. now rewrite !append_assoc.
Qed.

(** ** Filter queries of [fields.py] *)

Section FieldsProperties.
Import Fields.

Lemma FilterOperation_eqb_eq (a b : FilterOperation) :
  FilterOperation_eqb a b = true <-> a = b.
Proof. destruct a, b; simpl; split; congruence. Qed.

Lemma is_Unset_true (v : value) : is_Unset v = true <-> v = Unset.
Proof. destruct v; simpl; split; congruence. Qed.

(** X17.  The constructor of [fields.py] rejects exactly the two mismatches:
    no second operand without negation, a second operand with negation;
    every other call builds the node and stores its three arguments. *)
Lemma fields_FilterQuery_init_spec
    (first : operand) (op : FilterOperation) (second : value) :
  ((second = Unset /\ op <> NOT) \/ (second <> Unset /\ op = NOT) <->
   FilterQuery__init__ first op second = Raise (PyIncusException init_error)) /\
  (~ ((second = Unset /\ op <> NOT) \/ (second <> Unset /\ op = NOT)) <->
   exists q, FilterQuery__init__ first op second = Ok q /\
             first_value q = first /\ operation q = op /\ second_value q = second).
Proof.
  unfold FilterQuery__init__.
  destruct second, op; simpl; (split; split);
    try (intros [[? ?] | [? ?]]; congruence);
    try (intros ?; eexists; repeat split; reflexivity);
    try (intros (? & ? & _); congruence);
    try congruence;
    try (intros _; solve [left; split; congruence | right; split; congruence]);
    try (intros _ [[? ?] | [? ?]]; congruence);
    try (intros H; exfalso; apply H;
         solve [left; split; congruence | right; split; congruence]).
Qed.

Lemma fields_eq_is_leaf (f : ModelField) (s : scalar) :
  ModelField__eq__ f (Scalar s) = Ok (Build_FilterQuery (OfField f) EQUALS (Scalar s)).
Proof. reflexivity. Qed.

Lemma fields_ne_is_leaf (f : ModelField) (s : scalar) :
  ModelField__ne__ f (Scalar s) = Ok (Build_FilterQuery (OfField f) NOT_EQUALS (Scalar s)).
Proof. reflexivity. Qed.

(** C3 fails as it reads.  [str(F == "it's")] has the value between
    double quotes, as [repr] writes a text that holds a single quote. *)
Lemma quote_in_value_changes_the_quoting :
  wire (ModelField__eq__ {| cls := object; field_name := "name" |} (Scalar (PyStr "it's")))
  = Ok ("name eq " +:+ String dquote ("it's" +:+ String dquote "")) /\
  ~ eq_wire_string_as_stated {| cls := object; field_name := "name" |} "it's".
Proof. split; [reflexivity | discriminate]. Qed.

(** C3, amended.  In [fields.py], [str(F == v)] is the field name, a
    space, [eq], a space and [repr(v)]: for a [str] the literal that
    [repr] writes, which is the text between single quotes when the text
    has no quote, backslash or non-printable character; for an [int] its
    bare decimal numeral. *)
Theorem fields_eq_wire_string (f : ModelField) :
  (forall s : string,
      wire (ModelField__eq__ f (Scalar (PyStr s)))
      = Ok (field_name f +:+ " eq " +:+ repr_str s)) /\
  (forall s : string, plain s = true ->
      wire (ModelField__eq__ f (Scalar (PyStr s)))
      = Ok (field_name f +:+ " eq '" +:+ s +:+ "'")) /\
  (forall z : Z,
      wire (ModelField__eq__ f (Scalar (PyInt z)))
      = Ok (field_name f +:+ " eq " +:+ repr_int z)).
Proof.
  assert (E : forall s : scalar,
             wire (ModelField__eq__ f (Scalar s))
             = Ok (field_name f +:+ " eq " +:+ repr_scalar s)).
  { intros s. rewrite fields_eq_is_leaf. unfold wire, bind. f_equal.
    cbn [FilterQuery__str__ operand_str ModelField__str__ FilterOperation__str__
         FilterOperation_value].
    now rewrite !append_assoc. }
  split; [| split].
  - intros s. apply (E (PyStr s)).
  - intros s Hs. rewrite (E (PyStr s)). cbn [repr_scalar].
    rewrite (repr_str_plain s Hs). reflexivity.
  - intros z. apply (E (PyInt z)).
Qed.

Lemma fields_eq_wire_string_witness :
  wire (ModelField__eq__ {| cls := object; field_name := "name" |} (Scalar (PyStr "web")))
  = Ok "name eq 'web'".
Proof.
  destruct (fields_eq_wire_string {| cls := object; field_name := "name" |})
    as (_ & H & _).
  apply (H "web"). reflexivity.
Defined.

(** [(M.a == 5) & (M.b != 'y')] renders as [a eq 5 and b ne 'y']. *)
Example conjunction_of_comparisons (c : pytype) :
  wire (bind (ModelField__eq__ {| cls := c; field_name := "a" |} (Scalar (PyInt 5)))
          (fun p =>
           bind (ModelField__ne__ {| cls := c; field_name := "b" |} (Scalar (PyStr "y")))
             (fun q => FilterQuery__and__ p (Query q))))
  = Ok "a eq 5 and b ne 'y'".
Proof. reflexivity. Qed.

Lemma fields_eq_same_wire (p q : FilterQuery) :
  FilterQuery__eq__ p q = true <-> FilterQuery__str__ p = FilterQuery__str__ q.
Proof. unfold FilterQuery__eq__. apply String.eqb_eq. Qed.

(** C4.  [p == q] on two filter queries holds exactly when [str(p)] and
    [str(q)] are the same text.  So two trees built apart that render
    alike are equal: the two nestings of a three-fold conjunction are
    different trees, render alike and compare equal.  And the
    comparisons, by [==] or by [!=], of two descriptors of one field
    name with one scalar are equal whatever their owning types are,
    while their [repr] texts differ when the names of the owning types
    do. *)
Theorem FilterQuery_eq_is_wire_equality :
  (forall p q : FilterQuery,
      FilterQuery__eq__ p q = true <-> FilterQuery__str__ p = FilterQuery__str__ q) /\
  (exists p q : FilterQuery,
      nested_left = Ok p /\ nested_right = Ok q /\ p <> q /\
      FilterQuery__str__ p = FilterQuery__str__ q /\ FilterQuery__eq__ p q = true) /\
  (forall (c1 c2 : pytype) (n : string) (v : scalar),
      exists p q : FilterQuery,
        ModelField__eq__ {| cls := c1; field_name := n |} (Scalar v) = Ok p /\
        ModelField__eq__ {| cls := c2; field_name := n |} (Scalar v) = Ok q /\
        FilterQuery__eq__ p q = true /\
        (__name__ c1 <> __name__ c2 -> FilterQuery__repr__ p <> FilterQuery__repr__ q)) /\
  (forall (c1 c2 : pytype) (n : string) (v : scalar),
      exists p q : FilterQuery,
        ModelField__ne__ {| cls := c1; field_name := n |} (Scalar v) = Ok p /\
        ModelField__ne__ {| cls := c2; field_name := n |} (Scalar v) = Ok q /\
        FilterQuery__eq__ p q = true /\
        (__name__ c1 <> __name__ c2 -> FilterQuery__repr__ p <> FilterQuery__repr__ q)).
Proof.
  split; [exact fields_eq_same_wire | split; [| split]].
  - eexists. eexists. split; [reflexivity |]. split; [reflexivity |].
    split; [discriminate |]. split; reflexivity.
  - intros c1 c2 n v. eexists. eexists.
    split; [apply fields_eq_is_leaf |]. split; [apply fields_eq_is_leaf |].
    split; [now apply fields_eq_same_wire |].
    intros Hne E. apply Hne.
    cbn [FilterQuery__repr__ operand_repr bind _repr_mapping join] in E.
    unfold ModelField__repr__ in E. cbn [cls field_name] in E.
    injection E as E. rewrite <- !append_assoc in E.
    do 6 apply append_inj_r in E. exact E.
  - intros c1 c2 n v. eexists. eexists.
    split; [apply fields_ne_is_leaf |]. split; [apply fields_ne_is_leaf |].
    split; [now apply fields_eq_same_wire |].
    intros Hne E. apply Hne.
    cbn [FilterQuery__repr__ operand_repr bind _repr_mapping join] in E.
    unfold ModelField__repr__ in E. cbn [cls field_name] in E.
    injection E as E. rewrite <- !append_assoc in E.
    do 6 apply append_inj_r in E. exact E.
Qed.

Lemma FilterQuery_eq_is_wire_equality_witness :
  FilterQuery__repr__
    (Build_FilterQuery (OfField {| cls := object; field_name := "name" |})
       EQUALS (Scalar (PyStr "x")))
  <> FilterQuery__repr__
    (Build_FilterQuery (OfField {| cls := {| __name__ := "Instance" |}; field_name := "name" |})
       EQUALS (Scalar (PyStr "x"))).
Proof.
  destruct FilterQuery_eq_is_wire_equality as (_ & _ & H & _).
  destruct (H object {| __name__ := "Instance" |} "name" (PyStr "x"))
    as (p & q & Hp & Hq & _ & Hrepr).
  rewrite fields_eq_is_leaf in Hp, Hq.
  injection Hp as <-. injection Hq as <-.
  apply Hrepr. simpl. discriminate.
Defined.

(** C6.  [str(A & B)] is [str(A)], [" and "], [str(B)]; [str(A | B)] is
    [str(A)], [" or "], [str(B)]; [str(~A)] is ["not "], [str(A)]. *)
Theorem combinators_wire_string (A B : FilterQuery) :
  wire (FilterQuery__and__ A (Query B))
    = Ok (FilterQuery__str__ A +:+ " and " +:+ FilterQuery__str__ B) /\
  wire (FilterQuery__or__ A (Query B))
    = Ok (FilterQuery__str__ A +:+ " or " +:+ FilterQuery__str__ B) /\
  wire (FilterQuery__invert__ A) = Ok ("not " +:+ FilterQuery__str__ A).
Proof.
  repeat split; unfold wire, FilterQuery__and__, FilterQuery__or__, FilterQuery__invert__;
    cbn [FilterQuery__init__ is_Unset FilterOperation_eqb xorb bind];
    f_equal;
    cbn [FilterQuery__str__ operand_str FilterOperation__str__ FilterOperation_value];
    now rewrite ?append_assoc.
Qed.

(** C7.  The hash of a filter query is the hash of its first operand;
    the operation and the second operand take no part.  Hence two
    queries whose first operands hash alike hash alike, also when they
    are unequal, as [F == 1] and [F != 2] are. *)
Theorem FilterQuery_hash_is_first_operand_hash (hash_str : string -> Z) :
  (forall q : FilterQuery,
      FilterQuery__hash__ hash_str q = operand_hash hash_str (first_value q)) /\
  (forall (a : operand) (op1 op2 : FilterOperation) (b1 b2 : value),
      FilterQuery__hash__ hash_str (Build_FilterQuery a op1 b1)
      = FilterQuery__hash__ hash_str (Build_FilterQuery a op2 b2)) /\
  (forall p q : FilterQuery,
      operand_hash hash_str (first_value p) = operand_hash hash_str (first_value q) ->
      FilterQuery__hash__ hash_str p = FilterQuery__hash__ hash_str q) /\
  (forall f : ModelField,
      exists p q : FilterQuery,
        ModelField__eq__ f (Scalar (PyInt 1)) = Ok p /\
        ModelField__ne__ f (Scalar (PyInt 2)) = Ok q /\
        FilterQuery__eq__ p q = false /\
        FilterQuery__hash__ hash_str p = FilterQuery__hash__ hash_str q).
Proof.
  assert (H : forall q, FilterQuery__hash__ hash_str q
                        = operand_hash hash_str (first_value q))
    by (intros [a op b]; reflexivity).
  split; [exact H | split; [reflexivity | split]].
  - intros p q E. now rewrite !H.
  - intros f. eexists. eexists.
    split; [apply fields_eq_is_leaf |]. split; [apply fields_ne_is_leaf |].
    split; [| reflexivity].
    apply String.eqb_neq. intros E.
    cbn [FilterQuery__str__ operand_str ModelField__str__ FilterOperation__str__
         FilterOperation_value repr_scalar] in E.
    rewrite !append_assoc in E.
    assert (L : forall a x y : string, a +:+ x = a +:+ y -> x = y).
    { intros a x y. induction a as [|c a IH]; [trivial |].
      rewrite !append_cons. intros [= E']. now apply IH. }
    apply L in E. discriminate E.
Qed.

Lemma FilterQuery_hash_is_first_operand_hash_witness :
  FilterQuery__hash__ (fun s => Z.of_nat (String.length s)) nested_left_tree
  = FilterQuery__hash__ (fun s => Z.of_nat (String.length s)) leaf_a.
Proof.
  destruct (FilterQuery_hash_is_first_operand_hash (fun s => Z.of_nat (String.length s)))
    as (_ & _ & H & _).
  apply H. reflexivity.
Defined.

End FieldsProperties.

(** ** Filter queries of [general.py] *)

(** X18.  The constructor of [general.py] rejects one mismatch only: a
    missing second operand without negation; every other call, a
    negation with a second operand too, builds the node. *)
Lemma general_FilterQuery_init_spec
    (first : General.value) (op : General.FilterOperation) (second : General.value) :
  (second = General.Unset /\ op <> General.NOT <->
   General.FilterQuery__init__ first op second
   = Raise (PyIncusException General.init_error)) /\
  (~ (second = General.Unset /\ op <> General.NOT) <->
   General.FilterQuery__init__ first op second
   = Ok (General.Build_FilterQuery first op second)).
Proof.
  unfold General.FilterQuery__init__.
  destruct second, op; simpl; (split; split);
    try (intros [? ?]; congruence);
    try congruence;
    try (intros _; split; congruence);
    try (intros _ [? ?]; congruence);
    try (intros H; exfalso; apply H; split; congruence).
Qed.

(** C1, on [general.py].  [FilterQuery('a', FilterOperation.NOT, 5)], a
    negation with a second operand, is built and not refused; the node
    it yields has no [repr]: [_repr_mapping] has no entry for [NOT]. *)
Theorem general_negation_with_second_operand_accepted :
  General.FilterQuery__init__
    (General.Scalar (PyStr "a")) General.NOT (General.Scalar (PyInt 5))
  = Ok (General.Build_FilterQuery
          (General.Scalar (PyStr "a")) General.NOT (General.Scalar (PyInt 5))) /\
  forall repr_Unset : string,
    General.FilterQuery__repr__ repr_Unset
      (General.Build_FilterQuery
         (General.Scalar (PyStr "a")) General.NOT (General.Scalar (PyInt 5)))
    = Raise KeyError.
Proof. split; reflexivity. Qed.

(** In [general.py], [str] of a comparison shows the [repr] of the field
    name, of the operation code and of the value. *)
Lemma general_eq_wire_string (repr_Unset : string) (f : General.ModelField) (v : scalar) :
  bind (General.ModelField__eq__ f (General.Scalar v))
       (General.FilterQuery__str__ repr_Unset)
  = Ok (repr_str (General.field_name f) +:+ " 'eq' " +:+ repr_scalar v).
Proof.
  unfold General.ModelField__eq__, General.FilterQuery__init__. simpl.
  unfold General.FilterQuery__str__. simpl. reflexivity.
Qed.

(** For the field [n] of [general.py], [str(F == 'v')] is
    ['n' 'eq' 'v'] and [str(F == 5)] is ['n' 'eq' 5]: the field name and
    the operation code are quoted too. *)
Lemma general_eq_wire_string_quotes_name_and_code (repr_Unset : string) :
  bind (General.ModelField__eq__ {| General.field_name := "n" |}
          (General.Scalar (PyStr "v")))
       (General.FilterQuery__str__ repr_Unset)
  = Ok "'n' 'eq' 'v'" /\
  bind (General.ModelField__eq__ {| General.field_name := "n" |}
          (General.Scalar (PyInt 5)))
       (General.FilterQuery__str__ repr_Unset)
  = Ok "'n' 'eq' 5".
Proof. split; reflexivity. Qed.

(** ** Insertion-ordered dictionaries *)

Section DictFacts.
Context {V : Type}.
Implicit Types (d items : dict V) (k : string) (v : V).

Lemma dict_get_None k d : dict_get k d = None <-> k ∉ keys d.
Proof.
  induction d as [|[k' v'] d IH]; simpl.
  - split; [intros _; apply not_elem_of_nil | reflexivity].
  - rewrite not_elem_of_cons. destruct (String.eqb_spec k k') as [-> | Hne].
    + split; [discriminate | intros [H _]; now destruct H].
    + rewrite IH. tauto.
Qed.

Lemma dict_mem_true k d : dict_mem k d = true <-> k ∈ keys d.
Proof.
  unfold dict_mem. destruct (dict_get k d) eqn:E.
  - split; [intros _ | reflexivity].
    destruct (decide (k ∈ keys d)) as [|Hn]; [assumption |].
    apply dict_get_None in Hn. congruence.
  - apply dict_get_None in E. split; [discriminate | contradiction].
Qed.

Lemma dict_mem_false k d : dict_mem k d = false <-> k ∉ keys d.
Proof.
  rewrite <- dict_mem_true. destruct (dict_mem k d); split; congruence.
Qed.

Lemma dict_get_elem_of k v d : dict_get k d = Some v -> (k, v) ∈ d.
Proof.
  induction d as [|[k' v'] d IH]; simpl; [discriminate |].
  destruct (String.eqb_spec k k') as [-> | Hne].
  - intros [= ->]. apply list_elem_of_here.
  - intros H. apply list_elem_of_further. now apply IH.
Qed.

Lemma elem_of_dict_get k v d : NoDup (keys d) -> (k, v) ∈ d -> dict_get k d = Some v.
Proof.
  induction d as [|[k' v'] d IH]; simpl.
  - intros _ H. now apply elem_of_nil in H.
  - rewrite NoDup_cons. intros [Hk' Hd] [[= -> ->] | Hin]%elem_of_cons.
    + now rewrite String.eqb_refl.
    + destruct (String.eqb_spec k k') as [-> | Hne]; [| now apply IH].
      exfalso. apply Hk'. change k' with (fst (k', v)). now apply list_elem_of_fmap_2.
Qed.

Lemma dict_get_set_eq k v d : dict_get k (dict_set k v d) = Some v.
Proof.
  induction d as [|[k' v'] d IH]; simpl.
  - now rewrite String.eqb_refl.
  - destruct (String.eqb_spec k k') as [-> | Hne]; simpl.
    + now rewrite String.eqb_refl.
    + destruct (String.eqb_spec k k'); [contradiction | exact IH].
Qed.

Lemma dict_get_set_ne k k' v d : k <> k' -> dict_get k' (dict_set k v d) = dict_get k' d.
Proof.
  intros Hne. induction d as [|[k0 v0] d IH]; simpl.
  - destruct (String.eqb_spec k' k); [congruence | reflexivity].
  - destruct (String.eqb_spec k k0) as [-> | Hne0]; simpl.
    + destruct (String.eqb_spec k' k0); [congruence | reflexivity].
    + destruct (String.eqb_spec k' k0); [reflexivity | exact IH].
Qed.

Lemma keys_dict_set k v d :
  keys (dict_set k v d) = if dict_mem k d then keys d else keys d ++ [k].
Proof.
  induction d as [|[k' v'] d IH]; [reflexivity |].
  unfold dict_mem in *. simpl.
  destruct (String.eqb_spec k k') as [-> | Hne]; simpl; [reflexivity |].
  rewrite IH. now destruct (dict_get k d).
Qed.

Lemma elem_of_keys_dict_set k k' v d :
  k' ∈ keys (dict_set k v d) <-> k' = k \/ k' ∈ keys d.
Proof.
  rewrite keys_dict_set. destruct (dict_mem k d) eqn:E.
  - apply dict_mem_true in E. split; [tauto | intros [-> | H]; assumption].
  - rewrite elem_of_app, list_elem_of_singleton. tauto.
Qed.

Lemma NoDup_dict_set k v d : NoDup (keys d) -> NoDup (keys (dict_set k v d)).
Proof.
  intros H. rewrite keys_dict_set. destruct (dict_mem k d) eqn:E; [assumption |].
  apply dict_mem_false in E. apply NoDup_app. split; [assumption |].
  split; [| apply NoDup_singleton].
  intros x Hx ->%list_elem_of_singleton. contradiction.
Qed.

Lemma NoDup_dict_update d items : NoDup (keys d) -> NoDup (keys (dict_update d items)).
Proof.
  unfold dict_update. revert d.
  induction items as [|[k v] items IH]; intros d H; simpl; [assumption |].
  apply IH. now apply NoDup_dict_set.
Qed.

Lemma elem_of_keys_dict_update k d items :
  k ∈ keys (dict_update d items) <-> k ∈ keys d \/ k ∈ keys items.
Proof.
  unfold dict_update. revert d.
  induction items as [|[k' v] items IH]; intros d; simpl.
  - rewrite elem_of_nil. tauto.
  - rewrite IH, elem_of_keys_dict_set, elem_of_cons. simpl. tauto.
Qed.

Lemma dict_get_update_absent k d items :
  k ∉ keys items -> dict_get k (dict_update d items) = dict_get k d.
Proof.
  unfold dict_update. revert d.
  induction items as [|[k' v] items IH]; intros d; simpl; [reflexivity |].
  rewrite not_elem_of_cons. simpl. intros [Hne Hk].
  rewrite (IH _ Hk). apply dict_get_set_ne. congruence.
Qed.

Lemma dict_get_update_present k v d items :
  NoDup (keys items) -> dict_get k items = Some v ->
  dict_get k (dict_update d items) = Some v.
Proof.
  unfold dict_update. revert d.
  induction items as [|[k' v'] items IH]; intros d; simpl; [discriminate |].
  rewrite NoDup_cons. intros [Hk' Hnd].
  destruct (String.eqb_spec k k') as [-> | Hne].
  - intros [= ->].
    change (fold_left (fun acc kv => dict_set (fst kv) (snd kv) acc) items
              (dict_set k' v d)) with (dict_update (dict_set k' v d) items).
    rewrite (dict_get_update_absent _ _ _ Hk'). apply dict_get_set_eq.
  - intros H. now apply IH.
Qed.

Lemma dict_get_setdefault_kept k k' v v' d :
  dict_get k d = Some v -> dict_get k (dict_setdefault k' v' d) = Some v.
Proof.
  intros H. unfold dict_setdefault. destruct (dict_mem k' d); [assumption |].
  induction d as [|[k0 v0] d IH]; simpl in *; [discriminate |].
  destruct (String.eqb k k0); [assumption | now apply IH].
Qed.

Lemma elem_of_keys_setdefault k k' v d :
  k ∈ keys (dict_setdefault k' v d) <-> k = k' \/ k ∈ keys d.
Proof.
  unfold dict_setdefault. destruct (dict_mem k' d) eqn:E.
  - apply dict_mem_true in E. split; [tauto | intros [-> | H]; assumption].
  - unfold keys. rewrite fmap_app. simpl.
    rewrite elem_of_app, list_elem_of_singleton. tauto.
Qed.

Lemma NoDup_setdefault k v d : NoDup (keys d) -> NoDup (keys (dict_setdefault k v d)).
Proof.
  intros H. unfold dict_setdefault. destruct (dict_mem k d) eqn:E; [assumption |].
  apply dict_mem_false in E. unfold keys in *. rewrite fmap_app. simpl.
  apply NoDup_app. split; [assumption |]. split; [| apply NoDup_singleton].
  intros x Hx ->%list_elem_of_singleton. contradiction.
Qed.

End DictFacts.

Lemma dict_get_update {V : Type} (k : string) (d items : dict V) :
  dict_get k (dict_update d items)
  = match dict_get k (rev items) with
    | Some v => Some v
    | None => dict_get k d
    end.
Proof.
  unfold dict_update. revert d.
  induction items as [|[k' v'] items IH]; intros d; [reflexivity |].
  cbn [fold_left rev fst snd]. rewrite IH.
  assert (A : forall l1 l2 : dict V,
             dict_get k (l1 ++ l2)
             = match dict_get k l1 with Some v => Some v | None => dict_get k l2 end).
  { intros l1 l2. induction l1 as [|[k0 v0] l1 IH1]; simpl; [reflexivity |].
    destruct (String.eqb k k0); [reflexivity | exact IH1]. }
  rewrite A. destruct (dict_get k (rev items)); [reflexivity |].
  simpl. destruct (String.eqb_spec k k') as [-> | Hne].
  - apply dict_get_set_eq.
  - apply dict_get_set_ne. congruence.
Qed.

(** ** The model builder *)

Section BuilderFacts.
Import Fields Base.

(** The two loops of [__new__] in closed form. *)
Lemma classify_fold (attrs : list (string * pyobject))
    (f : dict pyobject) (m s : list (string * pyobject)) :
  fold_left classify attrs (f, m, s)
  = (dict_update f (List.filter is_default attrs),
     m ++ List.filter is_method attrs,
     s ++ List.filter is_secret attrs).
Proof.
  revert f m s. induction attrs as [|[k v] attrs IH]; intros f m s.
  - simpl. now rewrite !app_nil_r.
  - cbn [fold_left]. unfold classify at 2.
    unfold is_default, is_secret, is_method. cbn [List.filter fst snd].
    destruct (callable v || is_property v); cbn [negb andb].
    + rewrite IH. now rewrite <- app_assoc.
    + destruct (startswith_underscore k); cbn [negb]; rewrite IH.
      * now rewrite <- app_assoc.
      * reflexivity.
Qed.

Lemma annotate_fold (cls : pytype) (names : list string)
    (mfs : list (string * pyobject)) (f : dict pyobject) :
  fold_left (annotate cls) names (mfs, f)
  = (mfs ++ map (descriptor cls) (public_names names),
     setdefaults (public_names names) f).
Proof.
  revert mfs f. induction names as [|a names IH]; intros mfs f.
  - simpl. now rewrite app_nil_r.
  - cbn [fold_left]. unfold annotate at 2. unfold public_names. cbn [List.filter].
    destruct (startswith_underscore a); cbn [negb].
    + apply IH.
    + rewrite IH. unfold public_names. cbn [map]. now rewrite <- app_assoc.
Qed.

Lemma setdefaults_kept (names : list string) (d : dict pyobject) k v :
  dict_get k d = Some v -> dict_get k (setdefaults names d) = Some v.
Proof.
  unfold setdefaults. revert d.
  induction names as [|a names IH]; intros d H; [assumption |].
  simpl. apply IH. now apply dict_get_setdefault_kept.
Qed.

Lemma elem_of_keys_setdefaults (names : list string) (d : dict pyobject) k :
  k ∈ keys (setdefaults names d) <-> k ∈ names \/ k ∈ keys d.
Proof.
  unfold setdefaults. revert d.
  induction names as [|a names IH]; intros d; simpl.
  - rewrite elem_of_nil. tauto.
  - rewrite IH, elem_of_keys_setdefault, elem_of_cons. tauto.
Qed.

Lemma NoDup_setdefaults (names : list string) (d : dict pyobject) :
  NoDup (keys d) -> NoDup (keys (setdefaults names d)).
Proof.
  unfold setdefaults. revert d.
  induction names as [|a names IH]; intros d H; [assumption |].
  simpl. apply IH. now apply NoDup_setdefault.
Qed.

(** A name that is absent gets the sentinel. *)
Lemma setdefaults_absent (names : list string) (d : dict pyobject) k :
  k ∈ names -> dict_get k d = None ->
  dict_get k (setdefaults names d) = Some (Value Unset).
Proof.
  unfold setdefaults. revert d.
  induction names as [|a names IH]; intros d Hin Hd.
  - now apply elem_of_nil in Hin.
  - simpl. destruct (decide (k = a)) as [-> | Hne].
    + apply (setdefaults_kept names). unfold dict_setdefault, dict_mem. rewrite Hd.
      clear -Hd. induction d as [|[k0 v0] d IHd]; simpl in *.
      * now rewrite String.eqb_refl.
      * destruct (String.eqb a k0); [discriminate | now apply IHd].
    + apply elem_of_cons in Hin as [? | Hin]; [contradiction |].
      apply IH; [assumption |].
      apply dict_get_None. rewrite elem_of_keys_setdefault.
      apply dict_get_None in Hd. intros [? | ?]; contradiction.
Qed.

Lemma elem_of_public_names (a : string) (names : list string) :
  a ∈ public_names names <-> a ∈ names /\ public a.
Proof.
  unfold public_names, public. rewrite !list_elem_of_In, filter_In.
  now rewrite negb_true_iff.
Qed.

Lemma elem_of_filter_keys (p : string * pyobject -> bool) k (l : list (string * pyobject)) :
  k ∈ keys (List.filter p l) -> exists v, (k, v) ∈ l /\ p (k, v) = true.
Proof.
  unfold keys. intros ((k' & v) & -> & Hin)%list_elem_of_fmap.
  rewrite list_elem_of_In, filter_In, <- list_elem_of_In in Hin.
  exists v. exact Hin.
Qed.

End BuilderFacts.

Section ModelFacts.
Import Fields Base.

Lemma dict_get_dict_del (k k' : string) (d : dict pyobject) :
  dict_get k (dict_del k' d) = if String.eqb k k' then None else dict_get k d.
Proof.
  induction d as [|[k0 v0] d IH]; [now destruct (String.eqb k k') |].
  unfold dict_del in *. cbn [List.filter fst].
  destruct (String.eqb_spec k0 k') as [-> | Hne]; cbn [negb dict_get].
  - rewrite IH. now destruct (String.eqb k k').
  - rewrite IH. destruct (String.eqb_spec k k0) as [-> | Hk]; [| reflexivity].
    destruct (String.eqb_spec k0 k'); [contradiction | reflexivity].
Qed.

(** What [type] leaves of a namespace. *)
Lemma dict_get_class_body cls attrs annotations k :
  k <> "__qualname__" -> k <> "__classcell__" ->
  dict_get k (class_body cls attrs annotations)
  = dict_get k (class_pairs cls attrs annotations).
Proof.
  intros H1 H2. unfold class_body. rewrite !dict_get_dict_del.
  destruct (String.eqb_spec k "__classcell__"); [contradiction |].
  destruct (String.eqb_spec k "__qualname__"); [contradiction | reflexivity].
Qed.

Lemma elem_of_keys_class_body cls attrs annotations k :
  k ∈ keys (class_body cls attrs annotations) ->
  k ∈ keys (class_pairs cls attrs annotations).
Proof.
  unfold class_body, dict_del.
  intros (v & Hin & _)%elem_of_filter_keys.
  rewrite list_elem_of_In, filter_In, <- list_elem_of_In in Hin. destruct Hin as [Hin _].
  change k with (fst (k, v)). now apply list_elem_of_fmap_2.
Qed.

Lemma type_Ok name bases ns T :
  type name bases ns = Ok T ->
  T = {| class_name := name; class_bases := bases;
         namespace := dict_del "__classcell__" (dict_del "__qualname__" ns) |}.
Proof.
  unfold type.
  destruct (dict_get "__qualname__" ns) as [[| | | | |[|[]| |]]|]; try discriminate;
    (destruct (dict_get "__classcell__" ns) as [[]|]; try discriminate; now intros [= <-]).
Qed.

Lemma new_class_shape cls name bases attrs T :
  BaseIncusMeta__new__ cls name bases attrs = Ok T ->
  exists annotations,
    annotations_of attrs = Ok annotations /\
    T = {| class_name := name; class_bases := bases;
           namespace := dict_set "_model_fields" (Dict (default_mapping attrs annotations))
                          (with_hooks (class_body cls attrs annotations)) |}.
Proof.
  unfold BaseIncusMeta__new__, annotations_of. rewrite classify_fold.
  destruct (match dict_get "__annotations__" attrs with
            | Some o => iter o
            | None => Ok []
            end) as [annotations | e]; [| discriminate].
  cbn [bind]. rewrite annotate_fold.
  change (dict_of_pairs _) with (class_pairs cls attrs annotations).
  destruct (type name bases (class_pairs cls attrs annotations)) as [new_class | e] eqn:Et;
    [| discriminate].
  cbn [bind]. intros [= <-]. exists annotations. split; [reflexivity |].
  apply type_Ok in Et as ->. reflexivity.
Qed.

Lemma new_class_model_fields cls name bases attrs annotations T :
  BaseIncusMeta__new__ cls name bases attrs = Ok T ->
  annotations_of attrs = Ok annotations ->
  _model_fields T = default_mapping attrs annotations.
Proof.
  intros (ann & Ha & ->)%new_class_shape Ha'. rewrite Ha in Ha'. injection Ha' as ->.
  unfold _model_fields. cbn [namespace]. now rewrite dict_get_set_eq.
Qed.

Lemma default_mapping_public attrs annotations k :
  k ∈ keys (default_mapping attrs annotations) -> public k.
Proof.
  unfold default_mapping. rewrite elem_of_keys_setdefaults.
  intros [H | H].
  - now apply elem_of_public_names in H.
  - apply elem_of_keys_dict_update in H as [H | H]; [now apply elem_of_nil in H |].
    apply elem_of_filter_keys in H as (v & _ & H).
    unfold is_default in H. apply andb_prop in H as [_ H].
    now apply negb_true_iff in H.
Qed.

Lemma new_class_is_model_class cls name bases attrs T :
  BaseIncusMeta__new__ cls name bases attrs = Ok T -> model_class T.
Proof.
  intros H. destruct (new_class_shape _ _ _ _ _ H) as (ann & Ha & E).
  pose proof (new_class_model_fields _ _ _ _ _ _ H Ha) as Emf.
  split.
  - rewrite Emf. subst T. cbn [namespace]. apply dict_get_set_eq.
  - rewrite Emf. unfold default_mapping.
    apply NoDup_setdefaults, NoDup_dict_update. apply NoDup_nil_2.
  - rewrite Emf. apply default_mapping_public.
Qed.

Lemma public_not_underscore k : public k -> k <> "_model_fields" /\ k <> "__post_init__"
                                           /\ k <> "__init__".
Proof. unfold public. intros H. repeat split; intros ->; discriminate H. Qed.

(** *** The assignment loop *)

Lemma getattr_class (T : pyclass) (name : string) (st : state) :
  fresh st -> startswith_underscore name = true ->
  getattr T name st
  = (st, match dict_get name (namespace T) with
         | Some o => Ok o
         | None => Raise AttributeError
         end).
Proof.
  intros Hf Hn. unfold getattr.
  destruct (self_dict st !! name) eqn:E.
  - assert (Hp : public name) by (apply Hf; congruence).
    unfold public in Hp. congruence.
  - now destruct (dict_get name (namespace T)).
Qed.

Lemma init_loop_fold (T : pyclass) (items : list (string * pyobject)) :
  model_class T ->
  forall (unsets : list string) (st : state),
    fresh st ->
    init_loop T items unsets st
    = ({| self_dict := fst (fold_left (assign (_model_fields T)) items (self_dict st, unsets));
          post_init_calls := post_init_calls st |},
       Ok (snd (fold_left (assign (_model_fields T)) items (self_dict st, unsets)))).
Proof.
  intros HT. induction items as [|[field value] items IH]; intros unsets st Hf.
  - destruct st. reflexivity.
  - cbn [init_loop]. unfold mbind at 1.
    rewrite (getattr_class T "_model_fields" st Hf eq_refl), (mc_fields T HT).
    unfold mbind at 1. cbn [lift as_dict].
    cbn [fold_left]. unfold assign at 2 4. cbn [fst snd].
    destruct (dict_mem field (_model_fields T)) eqn:Hmem; cbn [negb].
    + destruct (Base.is_Unset value); [now apply IH |].
      destruct unsets as [|u unsets]; [| now apply IH].
      unfold mbind, setattr. rewrite IH; [reflexivity |].
      intros k Hk. cbn [self_dict] in Hk.
      destruct (decide (field = k)) as [<- | Hne].
      * apply (mc_public T HT). now apply dict_mem_true.
      * rewrite lookup_insert_ne in Hk by assumption. now apply Hf.
    + now apply IH.
Qed.

Lemma assign_fold_unsets (mf : dict pyobject) (items : list (string * pyobject))
    (self : gmap string pyobject) (unsets : list string) :
  snd (fold_left (assign mf) items (self, unsets))
  = unsets ++ map fst (List.filter (fun kv => dict_mem (fst kv) mf && Base.is_Unset (snd kv))
                         items).
Proof.
  revert self unsets. induction items as [|[k v] items IH]; intros self unsets.
  - simpl. now rewrite app_nil_r.
  - cbn [fold_left List.filter fst snd]. unfold assign at 2. cbn [fst snd].
    destruct (dict_mem k mf); cbn [negb andb]; [| apply IH].
    destruct (Base.is_Unset v).
    + rewrite IH. cbn [map fst]. now rewrite <- app_assoc.
    + destruct unsets; apply IH.
Qed.

(** When no field is missing, every item of a declared field has been
    assigned and nothing else. *)
Lemma assign_fold_assigned (mf : dict pyobject) (items : list (string * pyobject)) :
  NoDup (keys items) ->
  forall self self',
    fold_left (assign mf) items (self, []) = (self', []) ->
    forall k,
      self' !! k = match dict_get k items with
                   | Some v => if dict_mem k mf then Some v else self !! k
                   | None => self !! k
                   end.
Proof.
  induction items as [|[k0 v0] items IH]; intros Hnd self self' E k.
  - simpl in E. now injection E as <-.
  - apply NoDup_cons in Hnd as [Hk0 Hnd]. cbn [fmap list_fmap fst] in Hk0.
    cbn [fold_left] in E. unfold assign at 2 in E. cbn [fst snd] in E.
    cbn [dict_get].
    assert (Hrest : dict_get k0 items = None) by now apply dict_get_None.
    destruct (dict_mem k0 mf) eqn:Hmem; cbn [negb] in E.
    + destruct (Base.is_Unset v0).
      { apply (f_equal snd) in E. rewrite assign_fold_unsets in E. discriminate E. }
      rewrite (IH Hnd _ _ E k).
      destruct (String.eqb_spec k k0) as [-> | Hne].
      * now rewrite Hrest, Hmem, lookup_insert_eq.
      * rewrite lookup_insert_ne by congruence. reflexivity.
    + rewrite (IH Hnd _ _ E k).
      destruct (String.eqb_spec k k0) as [-> | Hne]; [| reflexivity].
      now rewrite Hrest, Hmem.
Qed.

End ModelFacts.

Section ConstructorFacts.
Import Fields Base.

Lemma assign_fold_fresh (mf : dict pyobject) (items : list (string * pyobject))
    (self : gmap string pyobject) (unsets : list string) (k : string) :
  fst (fold_left (assign mf) items (self, unsets)) !! k <> None ->
  self !! k <> None \/ k ∈ keys mf.
Proof.
  revert self unsets. induction items as [|[k0 v0] items IH]; intros self unsets.
  - simpl. tauto.
  - cbn [fold_left]. unfold assign at 2. cbn [fst snd].
    destruct (dict_mem k0 mf) eqn:Hmem; cbn [negb]; [| apply IH].
    destruct (Base.is_Unset v0); [apply IH |].
    destruct unsets; [| apply IH].
    intros [H | H]%IH; [| now right].
    destruct (decide (k0 = k)) as [<- | Hne].
    + right. now apply dict_mem_true.
    + rewrite lookup_insert_ne in H by assumption. now left.
Qed.

Lemma pyobject_is_Unset_true (o : pyobject) :
  Base.is_Unset o = true <-> o = Value Unset.
Proof.
  destruct o as [| | | | |[]]; simpl; split; congruence.
Qed.

(** [T(kwargs)] in closed form: the binding of the keywords, the loop,
    then the error or the hook. *)
Lemma construct_unfold (user_code : string -> method) (T : pyclass) (kwargs : dict pyobject) :
  model_class T ->
  construct user_code T kwargs
  = if dict_mem "self" kwargs
    then ({| self_dict := ∅; post_init_calls := [] |}, Raise TypeError)
    else
      match missing T kwargs with
      | [] =>
          match dict_get "__post_init__" (namespace T) with
          | Some (Function code) =>
              run_hook (code_of user_code code) (assigned T kwargs)
                (dict_update (_model_fields T) kwargs)
          | Some _ =>
              ({| self_dict := assigned T kwargs; post_init_calls := [] |}, Raise TypeError)
          | None =>
              ({| self_dict := assigned T kwargs; post_init_calls := [] |},
               Raise AttributeError)
          end
      | _ => ({| self_dict := assigned T kwargs; post_init_calls := [] |},
              Raise (PyIncusException (missing_error (missing T kwargs))))
      end.
Proof.
  intros HT. unfold construct, BaseIncusMeta_init, missing, assigned.
  set (st0 := {| self_dict := ∅; post_init_calls := [] |}).
  assert (Hf0 : fresh st0).
  { intros k Hk. cbn [st0 self_dict] in Hk. now rewrite lookup_empty in Hk. }
  unfold mbind at 1. unfold lift at 1, bind_kwargs.
  destruct (dict_mem "self" kwargs); [reflexivity |].
  unfold mbind at 1. rewrite (getattr_class T "_model_fields" st0 Hf0 eq_refl).
  rewrite (mc_fields T HT). unfold mbind at 1. cbn [lift as_dict].
  unfold mbind at 1. rewrite (init_loop_fold T _ HT [] st0 Hf0).
  cbn [st0 self_dict post_init_calls].
  set (r := fold_left (assign (_model_fields T))
              (dict_update (_model_fields T) kwargs) (∅, [])).
  destruct (snd r) as [|u us] eqn:Hr; [| reflexivity].
  set (st1 := {| self_dict := fst r; post_init_calls := [] |}).
  assert (Hf1 : fresh st1).
  { intros k Hk. cbn [st1 self_dict] in Hk. unfold r in Hk.
    apply assign_fold_fresh in Hk as [Hk | Hk].
    - now rewrite lookup_empty in Hk.
    - now apply (mc_public T HT). }
  unfold call_post_init, mbind.
  rewrite (getattr_class T "__post_init__" st1 Hf1 eq_refl).
  destruct (dict_get "__post_init__" (namespace T)) as [[code| | | | |]|];
    try reflexivity.
  unfold run_hook. cbn [st1 self_dict post_init_calls app].
  now destruct (code_of user_code code (fst r) (dict_update (_model_fields T) kwargs)).
Qed.

Lemma elem_of_missing (T : pyclass) (kwargs : dict pyobject) (g : string) :
  model_class T ->
  g ∈ missing T kwargs <->
  g ∈ keys (_model_fields T) /\
  dict_get g (dict_update (_model_fields T) kwargs) = Some (Value Unset).
Proof.
  intros HT. unfold missing. rewrite assign_fold_unsets. cbn [app].
  assert (Hnd : NoDup (keys (dict_update (_model_fields T) kwargs)))
    by apply NoDup_dict_update, (mc_nodup T HT).
  rewrite list_elem_of_In, in_map_iff. split.
  - intros ([k v] & <- & Hin). apply filter_In in Hin as [Hin Hp].
    cbn [fst snd] in *. apply andb_prop in Hp as [Hm Hu].
    apply dict_mem_true in Hm. apply pyobject_is_Unset_true in Hu. subst v.
    split; [assumption |]. apply elem_of_dict_get; [assumption |].
    now apply list_elem_of_In.
  - intros [Hm Hg]. exists (g, Value Unset). split; [reflexivity |].
    apply filter_In. split.
    + apply list_elem_of_In. now apply dict_get_elem_of.
    + cbn [fst snd]. apply dict_mem_true in Hm. now rewrite Hm.
Qed.

(** What the loop has put on the instance when nothing is missing. *)
Lemma assigned_lookup (T : pyclass) (kwargs : dict pyobject) (k : string) :
  model_class T -> missing T kwargs = [] ->
  assigned T kwargs !! k
  = if dict_mem k (_model_fields T)
    then dict_get k (dict_update (_model_fields T) kwargs)
    else None.
Proof.
  intros HT Hm. unfold missing, assigned in *.
  set (merged := dict_update (_model_fields T) kwargs) in *.
  destruct (fold_left (assign (_model_fields T)) merged (∅, [])) as [self' u] eqn:E.
  cbn [fst snd] in *. subst u.
  assert (Hnd : NoDup (keys merged)) by apply NoDup_dict_update, (mc_nodup T HT).
  rewrite (assign_fold_assigned _ merged Hnd _ _ E k), lookup_empty.
  destruct (dict_mem k (_model_fields T)) eqn:Hk.
  - destruct (dict_get k merged) eqn:Hg; [reflexivity |].
    apply dict_mem_true in Hk. apply dict_get_None in Hg. exfalso. apply Hg.
    apply elem_of_keys_dict_update. now left.
  - now destruct (dict_get k merged).
Qed.

End ConstructorFacts.

(** ** The generated constructor *)

Section ConstructorProperties.
Import Fields Base.

Lemma M_class_built : incus_model "M" [{| __name__ := "M" |}; object] M_vars = Ok M_class.
Proof. reflexivity. Qed.

(** [M(a=5)] has [a] at 5 and [b] at ['x']; [M()] raises and its message
    shows [a]. *)
Example M_with_a :
  construct no_code M_class [("a", Value (Scalar (PyInt 5)))]
  = ({| self_dict := <["b" := Value (Scalar (PyStr "x"))]>
                       (<["a" := Value (Scalar (PyInt 5))]> ∅);
        post_init_calls :=
          [(<["b" := Value (Scalar (PyStr "x"))]> (<["a" := Value (Scalar (PyInt 5))]> ∅),
            [("b", Value (Scalar (PyStr "x"))); ("a", Value (Scalar (PyInt 5)))])] |},
     Ok tt).
Proof. vm_compute. reflexivity. Qed.

Example M_without_a :
  snd (construct no_code M_class [])
  = Raise (PyIncusException "The required fields ['a'] are missing.").
Proof. vm_compute. reflexivity. Qed.

Lemma dict_get_Some_keys {V : Type} (k : string) (v : V) (d : dict V) :
  dict_get k d = Some v -> k ∈ keys d.
Proof.
  intros H. destruct (decide (k ∈ keys d)) as [|Hn]; [assumption |].
  apply dict_get_None in Hn. congruence.
Qed.





(** A name that the class body does not bind gets the default hook. *)
Lemma new_class_default_hook cls name bases attrs T :
  BaseIncusMeta__new__ cls name bases attrs = Ok T ->
  "__post_init__" ∉ keys attrs ->
  dict_get "__post_init__" (namespace T) = Some (Function _post_init_code).
Proof.
  intros (ann & _ & ->)%new_class_shape Hn. cbn [namespace].
  rewrite dict_get_set_ne by discriminate. unfold with_hooks.
  set (ns1 := dict_set "__init__" (Function _init_code) (class_body cls attrs ann)).
  assert (Hm : dict_mem "__post_init__" ns1 = false).
  { apply dict_mem_false. unfold ns1. rewrite elem_of_keys_dict_set.
    intros [? | H]; [discriminate |].
    apply elem_of_keys_class_body in H. unfold class_pairs, dict_of_pairs in H.
    apply elem_of_keys_dict_update in H as [H | H]; [now apply elem_of_nil in H |].
    unfold keys in H. rewrite !fmap_app, !elem_of_app in H.
    destruct H as [H | [H | H]].
    - apply elem_of_filter_keys in H as (v & H & _). apply Hn.
      change "__post_init__" with (fst ("__post_init__", v)). now apply list_elem_of_fmap_2.
    - apply elem_of_filter_keys in H as (v & H & _). apply Hn.
      change "__post_init__" with (fst ("__post_init__", v)). now apply list_elem_of_fmap_2.
    - apply list_elem_of_fmap in H as ([k o] & Hk & H). cbn [fst] in Hk. subst k.
      apply list_elem_of_In, in_map_iff in H as (a & [= -> _] & H).
      apply list_elem_of_In, elem_of_public_names in H as [_ H]. discriminate H. }
  rewrite Hm. apply dict_get_set_eq.
Qed.




End ConstructorProperties.

(** ** What the builder makes of the class body *)

Section BuilderProperties.
Import Fields Base.

Lemma dict_get_filter (p : string * pyobject -> bool) (l : dict pyobject) x v :
  dict_get x l = Some v -> p (x, v) = true -> dict_get x (List.filter p l) = Some v.
Proof.
  intros H Hp. induction l as [|[k0 v0] l IH]; [discriminate |].
  simpl in H. cbn [List.filter].
  destruct (String.eqb_spec x k0) as [<- | Hne].
  - injection H as ->. rewrite Hp. simpl. now rewrite String.eqb_refl.
  - destruct (p (k0, v0)); [| now apply IH].
    simpl. destruct (String.eqb_spec x k0); [contradiction | now apply IH].
Qed.

Lemma NoDup_keys_filter (p : string * pyobject -> bool) (l : dict pyobject) :
  NoDup (keys l) -> NoDup (keys (List.filter p l)).
Proof.
  induction l as [|[k0 v0] l IH]; [trivial |].
  unfold keys in *. cbn [fmap list_fmap fst List.filter]. rewrite NoDup_cons.
  intros [Hk Hnd]. destruct (p (k0, v0)); [| now apply IH].
  cbn [fmap list_fmap fst]. apply NoDup_cons. split; [| now apply IH].
  intros (v & Hin & _)%elem_of_filter_keys. apply Hk.
  change k0 with (fst (k0, v)). now apply list_elem_of_fmap_2.
Qed.

Lemma dict_get_descriptors (cls : pytype) (names : list string)
    (rest : list (string * pyobject)) (n : string) :
  n ∈ names ->
  dict_get n (map (descriptor cls) names ++ rest)
  = Some (Value (Field {| cls := cls; field_name := n |})).
Proof.
  induction names as [|a names IH]; [now intros ?%elem_of_nil |].
  intros Hin. cbn [map app descriptor dict_get].
  destruct (String.eqb_spec n a) as [-> | Hne]; [reflexivity |].
  apply elem_of_cons in Hin as [? | Hin]; [contradiction | now apply IH].
Qed.

(** Every public annotated name is bound, in the namespace of the new
    class, to a descriptor whose [cls] is the first argument of
    [__new__]: the metaclass. *)
Lemma new_class_descriptor cls name bases attrs annotations T n :
  BaseIncusMeta__new__ cls name bases attrs = Ok T ->
  annotations_of attrs = Ok annotations ->
  n ∈ annotations -> public n ->
  dict_get n (namespace T) = Some (Value (Field {| cls := cls; field_name := n |})).
Proof.
  intros (ann & Ha & ->)%new_class_shape Ha' Hin Hp.
  rewrite Ha in Ha'. injection Ha' as ->.
  destruct (public_not_underscore n Hp) as (Hn1 & Hn2 & Hn3).
  cbn [namespace]. rewrite dict_get_set_ne by congruence.
  unfold with_hooks.
  destruct (dict_mem "__post_init__" _);
    [| rewrite dict_get_set_ne by congruence];
    rewrite dict_get_set_ne by congruence;
    rewrite dict_get_class_body by (intros ->; discriminate Hp);
    unfold class_pairs, dict_of_pairs; rewrite dict_get_update;
    rewrite !rev_app_distr, <- map_rev, <- !app_assoc;
    (rewrite dict_get_descriptors;
     [reflexivity
     | rewrite list_elem_of_In, <- in_rev, <- list_elem_of_In;
       now apply elem_of_public_names]).
Qed.

(** A public annotated name without a value in the class body is a
    required field: its default is the sentinel. *)
Lemma annotated_without_value_is_required cls name bases attrs annotations T n :
  BaseIncusMeta__new__ cls name bases attrs = Ok T ->
  annotations_of attrs = Ok annotations ->
  n ∈ annotations -> public n -> dict_get n attrs = None ->
  dict_get n (_model_fields T) = Some (Value Unset).
Proof.
  intros Hnew Hann Hin Hp Hn.
  rewrite (new_class_model_fields _ _ _ _ _ _ Hnew Hann). unfold default_mapping.
  apply setdefaults_absent; [now apply elem_of_public_names |].
  apply dict_get_None. rewrite elem_of_keys_dict_update.
  intros [H | H]; [now apply elem_of_nil in H |].
  apply elem_of_filter_keys in H as (v & H & _).
  apply dict_get_None in Hn. apply Hn.
  change n with (fst (n, v)). now apply list_elem_of_fmap_2.
Qed.

(** C5, on the code.  For the model [M] with [a: int] and [b: str = 'x'],
    [M.a] is a descriptor whose [cls] is the metaclass and not [M], and
    [repr(M.a)] is [BaseIncusMeta.a], not [M.a]. *)
Theorem descriptor_is_bound_to_the_metaclass :
  incus_model "M" [{| __name__ := "M" |}; object] M_vars = Ok M_class /\
  dict_get "a" (namespace M_class)
  = Some (Value (Field {| cls := BaseIncusMeta; field_name := "a" |})) /\
  BaseIncusMeta <> type_of M_class /\
  ModelField__repr__ {| cls := BaseIncusMeta; field_name := "a" |} = "BaseIncusMeta.a" /\
  ModelField__repr__ {| cls := BaseIncusMeta; field_name := "a" |}
  <> class_name M_class +:+ "." +:+ "a".
Proof.
  split; [reflexivity |]. split; [reflexivity |]. split; [discriminate |].
  split; [reflexivity | discriminate].
Qed.




End BuilderProperties.

(** * Further properties of the code *)

(** ** [fields.py]: the invariant of the constructor, [repr], grouping *)

Scheme FilterQuery_mut := Induction for Fields.FilterQuery Sort Prop
  with operand_mut := Induction for Fields.operand Sort Prop
  with value_mut := Induction for Fields.value Sort Prop.

Section FieldsCoverage.
Import Fields.

(** X1.  The constructor of [fields.py] keeps the invariant: built from
    well-formed operands, the node that it returns is well formed all
    through. *)
Theorem init_keeps_well_formed
    (first : operand) (op : FilterOperation) (second : value) (q : FilterQuery) :
  operand_well_formed first = true ->
  value_well_formed second = true ->
  FilterQuery__init__ first op second = Ok q ->
  well_formed q = true.
Proof.
  intros Ha Hb. unfold FilterQuery__init__.
  destruct second as [|s|f|q']; destruct op; cbn [is_Unset FilterOperation_eqb xorb];
    try discriminate; intros [= <-];
    cbn [well_formed FilterOperation_eqb negb andb]; rewrite Ha; try reflexivity;
    exact Hb.
Qed.

Lemma init_keeps_well_formed_witness :
  well_formed
    (Build_FilterQuery (OfQuery leaf_a) AND (Query leaf_b)) = true.
Proof.
  apply (init_keeps_well_formed (OfQuery leaf_a) AND (Query leaf_b)).
  - reflexivity.
  - reflexivity.
  - reflexivity.
Defined.

(** X2.  [repr] of a well-formed query never raises: [_repr_mapping] is
    only asked for the operation of a node with a second operand, and on
    a well-formed tree that is never [NOT]. *)
Theorem repr_of_well_formed_query (q : FilterQuery) :
  well_formed q = true -> exists s : string, FilterQuery__repr__ q = Ok s.
Proof.
  apply (FilterQuery_mut
           (fun q => well_formed q = true -> exists s, FilterQuery__repr__ q = Ok s)
           (fun o => operand_well_formed o = true -> exists s, operand_repr o = Ok s)
           (fun v => value_well_formed v = true ->
                     match v with
                     | Query q' => exists s, FilterQuery__repr__ q' = Ok s
                     | _ => True
                     end)).
  - intros a IHa op b IHb H. cbn [well_formed] in H.
    apply andb_prop in H as [Ha Hb]. destruct (IHa Ha) as [ra Era].
    cbn [FilterQuery__repr__]. fold operand_repr. rewrite Era. cbn [bind].
    destruct b as [|s|f|q'].
    + eexists. reflexivity.
    + destruct op; try discriminate Hb; eexists; reflexivity.
    + destruct op; try discriminate Hb; eexists; reflexivity.
    + apply andb_prop in Hb as [Hop Hq'].
      destruct (IHb Hq') as [rb Erb]. rewrite Erb.
      destruct op; try discriminate Hop; eexists; reflexivity.
  - intros f _. eexists. reflexivity.
  - intros q' IH H. exact (IH H).
  - trivial.
  - trivial.
  - trivial.
  - intros q' IH H. exact (IH H).
Qed.

Lemma repr_of_well_formed_query_witness :
  exists s : string, FilterQuery__repr__ nested_left_tree = Ok s.
Proof. apply (repr_of_well_formed_query nested_left_tree). reflexivity. Defined.

(** X3.  [repr] follows the operators: for queries [A] and [B] with
    [repr] texts [a] and [b], [repr(A & B)] is [a and b], [repr(A | B)] is
    [a or b] and [repr(~A)] is [not a]. *)
Theorem combinators_repr (A B : FilterQuery) (a b : string) :
  FilterQuery__repr__ A = Ok a ->
  FilterQuery__repr__ B = Ok b ->
  debug (FilterQuery__and__ A (Query B)) = Ok (a +:+ " and " +:+ b) /\
  debug (FilterQuery__or__ A (Query B)) = Ok (a +:+ " or " +:+ b) /\
  debug (FilterQuery__invert__ A) = Ok ("not " +:+ a).
Proof.
  intros Ea Eb.
  unfold debug, FilterQuery__and__, FilterQuery__or__, FilterQuery__invert__.
  cbn [FilterQuery__init__ is_Unset FilterOperation_eqb xorb bind
       FilterQuery__repr__ operand_repr].
  rewrite Ea, Eb. cbn [bind _repr_mapping join]. repeat split.
Qed.

Lemma combinators_repr_witness :
  debug (FilterQuery__and__ leaf_a (Query leaf_c))
  = Ok ("object.a == 1" +:+ " and " +:+ "object.c != 'x'").
Proof.
  destruct (combinators_repr leaf_a leaf_c "object.a == 1" "object.c != 'x'")
    as (H & _ & _).
  - reflexivity.
  - reflexivity.
  - exact H.
Defined.

(** X4.  The comparisons of a descriptor: [repr(F == v)] and
    [repr(F != v)] are the owner's name, a dot, the field name, then [==]
    or [!=] and [repr(v)]; [str(F != v)] is the field name, [ne] and
    [repr(v)].  Compared with another descriptor [G], the wire string
    shows [G] by its [repr], owner and all. *)
Theorem comparisons_of_a_descriptor (f g : ModelField) (v : scalar) :
  debug (ModelField__eq__ f (Scalar v))
  = Ok (__name__ (cls f) +:+ "." +:+ field_name f +:+ " == " +:+ repr_scalar v) /\
  debug (ModelField__ne__ f (Scalar v))
  = Ok (__name__ (cls f) +:+ "." +:+ field_name f +:+ " != " +:+ repr_scalar v) /\
  wire (ModelField__ne__ f (Scalar v))
  = Ok (field_name f +:+ " ne " +:+ repr_scalar v) /\
  wire (ModelField__eq__ f (Field g))
  = Ok (field_name f +:+ " eq " +:+ __name__ (cls g) +:+ "." +:+ field_name g).
Proof.
  unfold debug, wire, ModelField__eq__, ModelField__ne__.
  cbn [FilterQuery__init__ is_Unset FilterOperation_eqb xorb bind
       FilterQuery__repr__ operand_repr _repr_mapping join
       FilterQuery__str__ operand_str ModelField__str__ FilterOperation__str__
       FilterOperation_value].
  unfold ModelField__repr__.
  repeat split; f_equal; now rewrite !append_assoc.
Qed.

(** X5.  The wire string keeps no grouping.  For all queries [A], [B],
    [C], [(A & B) | C] and [A & (B | C)] have one wire string, and so
    have [~(A & B)] and [(~A) & B]; each pair compares equal. *)
Theorem wire_string_loses_grouping (A B C : FilterQuery) :
  wire (bind (FilterQuery__and__ A (Query B)) (fun ab => FilterQuery__or__ ab (Query C)))
  = wire (bind (FilterQuery__or__ B (Query C)) (fun bc => FilterQuery__and__ A (Query bc))) /\
  FilterQuery__eq__
    (Build_FilterQuery (OfQuery (Build_FilterQuery (OfQuery A) AND (Query B))) OR (Query C))
    (Build_FilterQuery (OfQuery A) AND (Query (Build_FilterQuery (OfQuery B) OR (Query C))))
  = true /\
  wire (bind (FilterQuery__and__ A (Query B)) FilterQuery__invert__)
  = wire (bind (FilterQuery__invert__ A) (fun na => FilterQuery__and__ na (Query B))) /\
  FilterQuery__eq__
    (Build_FilterQuery (OfQuery (Build_FilterQuery (OfQuery A) AND (Query B))) NOT Unset)
    (Build_FilterQuery (OfQuery (Build_FilterQuery (OfQuery A) NOT Unset)) AND (Query B))
  = true.
Proof.
  assert (E1 : FilterQuery__str__
                 (Build_FilterQuery
                    (OfQuery (Build_FilterQuery (OfQuery A) AND (Query B))) OR (Query C))
               = FilterQuery__str__
                   (Build_FilterQuery (OfQuery A) AND
                      (Query (Build_FilterQuery (OfQuery B) OR (Query C))))).
  { cbn [FilterQuery__str__ operand_str FilterOperation__str__ FilterOperation_value].
    now rewrite !append_assoc. }
  assert (E2 : FilterQuery__str__
                 (Build_FilterQuery
                    (OfQuery (Build_FilterQuery (OfQuery A) AND (Query B))) NOT Unset)
               = FilterQuery__str__
                   (Build_FilterQuery
                      (OfQuery (Build_FilterQuery (OfQuery A) NOT Unset)) AND (Query B))).
  { cbn [FilterQuery__str__ operand_str FilterOperation__str__ FilterOperation_value].
    now rewrite !append_assoc. }
  split; [| split; [| split]].
  - unfold wire, FilterQuery__and__, FilterQuery__or__.
    cbn [FilterQuery__init__ is_Unset FilterOperation_eqb xorb bind]. now rewrite E1.
  - apply fields_eq_same_wire, E1.
  - unfold wire, FilterQuery__and__, FilterQuery__invert__.
    cbn [FilterQuery__init__ is_Unset FilterOperation_eqb xorb bind]. now rewrite E2.
  - apply fields_eq_same_wire, E2.
Qed.

(** X6.  Equal queries need not hash alike.  The comparison of the field
    named [not n] with [v] and the negation of the comparison of the
    field [n] with [v] have one wire string and compare equal; the hash
    of the first is that of [not n], the hash of the second that of [n]:
    they differ whenever the string hash tells the two names apart. *)
Theorem equal_queries_with_different_hashes
    (hash_str : string -> Z) (c : pytype) (n : string) (v : scalar) :
  hash_str ("not " +:+ n) <> hash_str n ->
  exists p q : FilterQuery,
    ModelField__eq__ {| cls := c; field_name := "not " +:+ n |} (Scalar v) = Ok p /\
    bind (ModelField__eq__ {| cls := c; field_name := n |} (Scalar v))
         FilterQuery__invert__ = Ok q /\
    FilterQuery__eq__ p q = true /\
    FilterQuery__hash__ hash_str p <> FilterQuery__hash__ hash_str q.
Proof.
  intros Hh. eexists. eexists.
  split; [apply fields_eq_is_leaf |]. split; [reflexivity |]. split.
  - apply fields_eq_same_wire.
    cbn [FilterQuery__str__ operand_str ModelField__str__ field_name
         FilterOperation__str__ FilterOperation_value].
    now rewrite !append_assoc.
  - exact Hh.
Qed.

Lemma equal_queries_with_different_hashes_witness :
  exists p q : FilterQuery,
    ModelField__eq__ {| cls := object; field_name := "not " +:+ "name" |}
      (Scalar (PyStr "web")) = Ok p /\
    bind (ModelField__eq__ {| cls := object; field_name := "name" |} (Scalar (PyStr "web")))
         FilterQuery__invert__ = Ok q /\
    FilterQuery__eq__ p q = true /\
    FilterQuery__hash__ (fun s => Z.of_nat (String.length s)) p
    <> FilterQuery__hash__ (fun s => Z.of_nat (String.length s)) q.
Proof.
  apply (equal_queries_with_different_hashes
           (fun s => Z.of_nat (String.length s)) object "name" (PyStr "web")).
  vm_compute. discriminate.
Defined.

End FieldsCoverage.

(** ** [general.py]: negations and nested queries *)

(** X7.  In [general.py] the [repr] of a negation does not show what is
    negated: it is [not] and the [repr] of the sentinel, whatever the
    field; its [str] is [not] and the field name between quotes. *)
Theorem general_negation_rendering (repr_Unset : string) (f : General.ModelField) :
  bind (General.ModelField__invert__ f) (General.FilterQuery__repr__ repr_Unset)
  = Ok ("not " +:+ repr_Unset) /\
  bind (General.ModelField__invert__ f) (General.FilterQuery__str__ repr_Unset)
  = Ok ("not " +:+ repr_str (General.field_name f)).
Proof. split; reflexivity. Qed.

(** X8.  In [general.py] the [str] of [F & (G == v)] shows the nested
    comparison by its [repr]: with the symbol [==] of the debug form, not
    the code [eq] of the wire form, and every part between quotes. *)
Theorem general_nested_wire_string
    (repr_Unset : string) (f g : General.ModelField) (v : scalar) :
  bind (bind (General.ModelField__eq__ g (General.Scalar v))
          (fun q => General.ModelField__and__ f (General.Query q)))
       (General.FilterQuery__str__ repr_Unset)
  = Ok (repr_str (General.field_name f) +:+ " 'and' "
        +:+ repr_str (General.field_name g) +:+ " '==' " +:+ repr_scalar v).
Proof.
  unfold General.ModelField__eq__, General.ModelField__and__, General.FilterQuery__init__.
  cbn [General.is_Unset General.FilterOperation_eqb andb negb bind].
  unfold General.FilterQuery__str__.
  cbn [General.second_value General.first_value General.operation
       General.repr General.FilterQuery__repr__ General._repr_mapping bind join
       General.FilterOperation_value].
  reflexivity.
Qed.

(** ** [base.py]: what the builder makes of a class body *)

Section BuilderCoverage.
Import Fields Base.

Lemma dict_get_app {V : Type} (k : string) (l1 l2 : dict V) :
  dict_get k (l1 ++ l2)
  = match dict_get k l1 with Some v => Some v | None => dict_get k l2 end.
Proof.
  induction l1 as [|[k0 v0] l1 IH]; simpl; [reflexivity |].
  destruct (String.eqb k k0); [reflexivity | exact IH].
Qed.

Lemma elem_of_keys_rev {V : Type} (k : string) (l : dict V) :
  k ∈ keys (rev l) <-> k ∈ keys l.
Proof.
  unfold keys. rewrite !list_elem_of_fmap.
  split; intros (y & -> & Hy); exists y; (split; [reflexivity |]);
    rewrite list_elem_of_In in *; [now apply in_rev | now apply in_rev in Hy].
Qed.

Lemma NoDup_keys_rev {V : Type} (l : dict V) : NoDup (keys l) -> NoDup (keys (rev l)).
Proof.
  induction l as [|[k v] l IH]; [trivial |].
  unfold keys in *. cbn [fmap list_fmap fst rev]. rewrite NoDup_cons. intros [Hk Hnd].
  rewrite fmap_app. apply NoDup_app. split; [now apply IH |].
  split; [| apply NoDup_singleton].
  intros x Hx ->%list_elem_of_singleton. apply Hk.
  now apply (elem_of_keys_rev k l).
Qed.

Lemma dict_get_rev {V : Type} (k : string) (v : V) (l : dict V) :
  NoDup (keys l) -> dict_get k l = Some v -> dict_get k (rev l) = Some v.
Proof.
  intros Hnd H. apply elem_of_dict_get; [now apply NoDup_keys_rev |].
  apply dict_get_elem_of in H. rewrite list_elem_of_In in *. now apply in_rev in H.
Qed.

Lemma elem_of_keys_filter (p : string * pyobject -> bool) k v (l : dict pyobject) :
  (k, v) ∈ l -> p (k, v) = true -> k ∈ keys (List.filter p l).
Proof.
  intros Hin Hp. unfold keys. apply list_elem_of_fmap. exists (k, v).
  split; [reflexivity |]. rewrite list_elem_of_In, filter_In, <- list_elem_of_In.
  now split.
Qed.

(** The entries of the class body that [type(...)] gets and keeps. *)
Lemma class_body_keeps cls attrs annotations k v :
  NoDup (keys attrs) ->
  dict_get k attrs = Some v ->
  is_method (k, v) = true \/ startswith_underscore k = true ->
  k ∉ public_names annotations ->
  k <> "__qualname__" -> k <> "__classcell__" ->
  dict_get k (class_body cls attrs annotations) = Some v.
Proof.
  intros Hnd Hk Hkind Hann Hq Hc.
  rewrite dict_get_class_body by assumption.
  unfold class_pairs, dict_of_pairs. rewrite dict_get_update.
  rewrite !rev_app_distr, <- !app_assoc, !dict_get_app.
  assert (HD : dict_get k (rev (map (descriptor cls) (public_names annotations))) = None).
  { apply dict_get_None. rewrite elem_of_keys_rev. unfold keys.
    intros ([k' o] & Hk' & H)%list_elem_of_fmap. cbn [fst] in Hk'. subst k'.
    apply list_elem_of_In, in_map_iff in H as (a & [= -> _] & H).
    now apply list_elem_of_In in H. }
  rewrite HD. destruct (is_method (k, v)) eqn:Hm.
  - rewrite (dict_get_rev k v); [reflexivity | now apply NoDup_keys_filter |].
    now apply dict_get_filter.
  - destruct Hkind as [? | Hu]; [discriminate |].
    assert (HM : dict_get k (rev (List.filter is_method attrs)) = None).
    { apply dict_get_None. rewrite elem_of_keys_rev.
      intros (v' & Hin & Hp)%elem_of_filter_keys.
      rewrite (elem_of_dict_get _ _ _ Hnd Hin) in Hk. injection Hk as ->. congruence. }
    rewrite HM.
    rewrite (dict_get_rev k v (List.filter is_secret attrs));
      [reflexivity | now apply NoDup_keys_filter |].
    apply dict_get_filter; [assumption |].
    unfold is_secret. cbn [fst]. now rewrite Hm, Hu.
Qed.

(** X9.  The builder keeps the methods, the properties and the private
    attributes of the class body: each is in the namespace of the new
    class under its name, with its value, unless the name is a public
    annotated one (then the descriptor takes its place), is one of
    [__init__] and [_model_fields], which the builder sets itself, or is
    one that [type] handles.  Of those, [__qualname__] and
    [__classcell__] are never in the namespace of the new class.  A
    [__post_init__] of the class body is kept. *)
Theorem class_body_is_kept
    (cls : pytype) (name : string) (bases : list pytype) (attrs : dict pyobject)
    (annotations : list string) (T : pyclass) :
  BaseIncusMeta__new__ cls name bases attrs = Ok T ->
  annotations_of attrs = Ok annotations ->
  NoDup (keys attrs) ->
  dict_get "__qualname__" (namespace T) = None /\
  dict_get "__classcell__" (namespace T) = None /\
  forall (k : string) (v : pyobject),
    dict_get k attrs = Some v ->
    callable v = true \/ is_property v = true \/ startswith_underscore k = true ->
    ~ (k ∈ annotations /\ public k) ->
    k <> "__init__" -> k <> "_model_fields" ->
    k ∉ handled_by_type ->
    dict_get k (namespace T) = Some v.
Proof.
  intros (ann & Ha & ->)%new_class_shape Ha' Hnd.
  rewrite Ha in Ha'. injection Ha' as ->. cbn [namespace].
  assert (Hgone : forall k, k = "__qualname__" \/ k = "__classcell__" ->
            dict_get k (dict_set "_model_fields" (Dict (default_mapping attrs annotations))
                          (with_hooks (class_body cls attrs annotations))) = None).
  { intros k Hk.
    assert (Hb : dict_get k (class_body cls attrs annotations) = None).
    { unfold class_body. rewrite !dict_get_dict_del.
      destruct Hk as [-> | ->]; reflexivity. }
    rewrite dict_get_set_ne by (destruct Hk as [-> | ->]; discriminate).
    unfold with_hooks.
    destruct (dict_mem "__post_init__" _);
      [| rewrite dict_get_set_ne by (destruct Hk as [-> | ->]; discriminate)];
      now rewrite dict_get_set_ne by (destruct Hk as [-> | ->]; discriminate). }
  split; [apply Hgone; now left |]. split; [apply Hgone; now right |].
  intros k v Hk Hkind Hann Hinit Hmf Hty.
  assert (Hbody : dict_get k (class_body cls attrs annotations) = Some v).
  { apply class_body_keeps; try assumption.
    - unfold is_method. cbn [snd].
      destruct Hkind as [-> | [-> | ->]]; [now left | left | now right].
      now rewrite orb_true_r.
    - now rewrite elem_of_public_names.
    - intros ->. apply Hty, list_elem_of_here.
    - intros ->. apply Hty, list_elem_of_further, list_elem_of_here. }
  rewrite dict_get_set_ne by congruence. unfold with_hooks.
  set (ns1 := dict_set "__init__" (Function _init_code) (class_body cls attrs annotations)).
  assert (H1 : dict_get k ns1 = Some v).
  { unfold ns1. rewrite dict_get_set_ne by congruence. exact Hbody. }
  destruct (dict_mem "__post_init__" ns1) eqn:Hm; [exact H1 |].
  destruct (decide (k = "__post_init__")) as [-> | Hne].
  - unfold dict_mem in Hm. now rewrite H1 in Hm.
  - rewrite dict_get_set_ne by congruence. exact H1.
Qed.

Lemma class_body_is_kept_witness :
  dict_get "__qualname__" Job_attrs = Some (Value (Scalar (PyStr "Queue.Job"))) /\
  dict_get "__qualname__" (namespace Job) = None /\
  dict_get "__classcell__" (namespace Job) = None /\
  dict_get "describe" (namespace Job) = Some (Function "Job.describe").
Proof.
  destruct (class_body_is_kept BaseIncusMeta "Job" [] Job_attrs ["name"] Job)
    as (Hq & Hc & Hkept).
  - reflexivity.
  - reflexivity.
  - apply (bool_decide_unpack _). vm_compute. reflexivity.
  - split; [reflexivity |]. split; [exact Hq |]. split; [exact Hc |].
    apply Hkept.
    + reflexivity.
    + left. reflexivity.
    + intros [H _]. revert H. apply (bool_decide_unpack _). vm_compute. reflexivity.
    + discriminate.
    + discriminate.
    + apply (bool_decide_unpack _). vm_compute. reflexivity.
Defined.

(** X10.  The keys of the default mapping of a built class are the
    public names that are annotated or that the class body binds to an
    object that is neither callable nor a property, each once; no name
    that starts with an underscore is ever among them. *)
Theorem model_fields_keys
    (cls : pytype) (name : string) (bases : list pytype) (attrs : dict pyobject)
    (annotations : list string) (T : pyclass) :
  BaseIncusMeta__new__ cls name bases attrs = Ok T ->
  annotations_of attrs = Ok annotations ->
  NoDup (keys (_model_fields T)) /\
  forall k : string,
    k ∈ keys (_model_fields T) <->
    public k /\
    (k ∈ annotations \/
     exists v, (k, v) ∈ attrs /\ callable v = false /\ is_property v = false).
Proof.
  intros Hnew Hann. split; [apply (mc_nodup T), (new_class_is_model_class _ _ _ _ _ Hnew) |].
  intros k. rewrite (new_class_model_fields _ _ _ _ _ _ Hnew Hann).
  unfold default_mapping.
  rewrite elem_of_keys_setdefaults, elem_of_public_names, elem_of_keys_dict_update.
  split.
  - intros [[Hin Hp] | [H | H]].
    + split; [assumption | now left].
    + now apply elem_of_nil in H.
    + apply elem_of_filter_keys in H as (v & Hin & Hd).
      unfold is_default, is_method in Hd. cbn [fst snd] in Hd.
      apply andb_prop in Hd as [Hm Hp]. apply negb_true_iff in Hm, Hp.
      apply orb_false_elim in Hm as [Hc Hpr].
      split; [exact Hp |]. right. exists v. now repeat split.
  - intros [Hp [Hin | (v & Hin & Hc & Hpr)]]; [now left |].
    right. right. apply (elem_of_keys_filter _ k v); [assumption |].
    unfold is_default, is_method. cbn [fst snd]. unfold public in Hp.
    now rewrite Hc, Hpr, Hp.
Qed.

Lemma model_fields_keys_witness :
  "retries" ∈ keys (_model_fields Server) /\ "_token" ∉ keys (_model_fields Server).
Proof.
  destruct (model_fields_keys BaseIncusMeta "Server" [{| __name__ := "Server" |}; object]
              Server_vars ["host"; "port"; "handler"; "_token"] Server)
    as [_ H].
  - reflexivity.
  - reflexivity.
  - split.
    + apply H. split; [reflexivity |]. right. exists (Value (Scalar (PyInt 3))).
      split; [| split; reflexivity].
      apply dict_get_elem_of. reflexivity.
    + intros [Hp _]%H. discriminate Hp.
Defined.

(** X11.  A public value of the class body that is neither callable nor
    a property is the default of its name in the built class, annotated
    or not. *)
Theorem class_body_value_is_the_default
    (cls : pytype) (name : string) (bases : list pytype) (attrs : dict pyobject)
    (annotations : list string) (T : pyclass) (k : string) (v : pyobject) :
  BaseIncusMeta__new__ cls name bases attrs = Ok T ->
  annotations_of attrs = Ok annotations ->
  NoDup (keys attrs) ->
  dict_get k attrs = Some v ->
  public k -> callable v = false -> is_property v = false ->
  dict_get k (_model_fields T) = Some v.
Proof.
  intros Hnew Hann Hnd Hk Hp Hc Hpr.
  rewrite (new_class_model_fields _ _ _ _ _ _ Hnew Hann). unfold default_mapping.
  apply setdefaults_kept.
  apply dict_get_update_present; [now apply NoDup_keys_filter |].
  apply dict_get_filter; [assumption |].
  unfold is_default, is_method. cbn [fst snd]. unfold public in Hp.
  now rewrite Hc, Hpr, Hp.
Qed.

Lemma class_body_value_is_the_default_witness :
  dict_get "port" (_model_fields Server) = Some (Value (Scalar (PyInt 8443))).
Proof.
  apply (class_body_value_is_the_default BaseIncusMeta "Server"
           [{| __name__ := "Server" |}; object] Server_vars
           ["host"; "port"; "handler"; "_token"] Server).
  - reflexivity.
  - reflexivity.
  - apply (bool_decide_unpack _). vm_compute. reflexivity.
  - reflexivity.
  - reflexivity.
  - reflexivity.
  - reflexivity.
Defined.

(** X12.  For a class made by [incus_model], every public annotated name
    is bound to a descriptor of that name whose owner is the metaclass:
    its [str] is the name and its [repr] is [BaseIncusMeta.] and the
    name, whatever the class. *)
Theorem incus_model_descriptors
    (name : string) (mro : list pytype) (vars : dict pyobject)
    (annotations : list string) (T : pyclass) (n : string) :
  incus_model name mro vars = Ok T ->
  annotations_of vars = Ok annotations ->
  n ∈ annotations -> public n ->
  exists f : ModelField,
    dict_get n (namespace T) = Some (Value (Field f)) /\
    ModelField__str__ f = n /\
    ModelField__repr__ f = "BaseIncusMeta." +:+ n.
Proof.
  intros Hnew Hann Hin Hp.
  exists {| cls := BaseIncusMeta; field_name := n |}.
  split; [| split; reflexivity].
  exact (new_class_descriptor _ _ _ _ _ _ _ Hnew Hann Hin Hp).
Qed.

Lemma incus_model_descriptors_witness :
  exists f : ModelField,
    dict_get "handler" (namespace Server) = Some (Value (Field f)) /\
    ModelField__str__ f = "handler" /\
    ModelField__repr__ f = "BaseIncusMeta." +:+ "handler".
Proof.
  apply (incus_model_descriptors "Server" [{| __name__ := "Server" |}; object]
           Server_vars ["host"; "port"; "handler"; "_token"] Server "handler").
  - reflexivity.
  - reflexivity.
  - apply (bool_decide_unpack _). vm_compute. reflexivity.
  - reflexivity.
Defined.

(** X19.  The builder sets [__init__] and [_model_fields] itself: in the
    namespace of the new class [__init__] is [_init] and [_model_fields]
    is the default mapping, whatever the class body binds to the two
    names. *)
Theorem generated_names_replace_the_class_body
    (cls : pytype) (name : string) (bases : list pytype) (attrs : dict pyobject)
    (annotations : list string) (T : pyclass) :
  BaseIncusMeta__new__ cls name bases attrs = Ok T ->
  annotations_of attrs = Ok annotations ->
  dict_get "__init__" (namespace T) = Some (Function _init_code) /\
  dict_get "_model_fields" (namespace T) = Some (Dict (default_mapping attrs annotations)).
Proof.
  intros (ann & Ha & ->)%new_class_shape Ha'. rewrite Ha in Ha'. injection Ha' as ->.
  cbn [namespace]. split; [| apply dict_get_set_eq].
  rewrite dict_get_set_ne by discriminate. unfold with_hooks.
  destruct (dict_mem "__post_init__" _);
    [| rewrite dict_get_set_ne by discriminate]; apply dict_get_set_eq.
Qed.

Lemma generated_names_replace_the_class_body_witness :
  dict_get "__init__" Server_vars = Some (Function "Server.__init__") /\
  dict_get "__init__" (namespace Server) = Some (Function _init_code).
Proof.
  split; [reflexivity |].
  apply (generated_names_replace_the_class_body BaseIncusMeta "Server"
           [{| __name__ := "Server" |}; object] Server_vars
           ["host"; "port"; "handler"; "_token"] Server).
  - reflexivity.
  - reflexivity.
Defined.

End BuilderCoverage.

(** ** [base.py]: the generated constructor *)

Section ConstructorCoverage.
Import Fields Base.

(** A missing field makes the call raise, with the list of the missing
    fields in the message and no call of the hook. *)
Lemma missing_raises (user_code : string -> method) (T : pyclass)
    (kwargs : dict pyobject) (g : string) :
  model_class T -> dict_get "self" kwargs = None -> g ∈ missing T kwargs ->
  construct user_code T kwargs
  = ({| self_dict := assigned T kwargs; post_init_calls := [] |},
     Raise (PyIncusException (missing_error (missing T kwargs)))).
Proof.
  intros HT Hself Hg. rewrite (construct_unfold user_code T kwargs HT).
  unfold dict_mem. rewrite Hself.
  destruct (missing T kwargs); [now apply elem_of_nil in Hg | reflexivity].
Qed.

Lemma assign_fold_stuck (mf : dict pyobject) (items : list (string * pyobject))
    (self : gmap string pyobject) (u : string) (us : list string) :
  fst (fold_left (assign mf) items (self, u :: us)) = self.
Proof.
  revert u us. induction items as [|[k v] items IH]; intros u us; [reflexivity |].
  cbn [fold_left]. unfold assign at 2. cbn [fst snd].
  destruct (dict_mem k mf); cbn [negb]; [| apply IH].
  destruct (Base.is_Unset v); [| apply IH].
  cbn [app]. apply IH.
Qed.











End ConstructorCoverage.
